(** * Patient record system: a shallow embedding of [src/data.py] and of
      [src/FastAPI_patient_management/main.py]

    The development has three layers.

    - [Py]: the fragments of the Python runtime the handlers rely on:
      [int(str)], the format specification [03d], [round(x, 2)], the
      insertion-ordered [dict] and the stable [sorted]/[list.sort].
    - [Data]: the handlers of [src/data.py] (ids generated by the server,
      renumbering on delete).
    - [Variant]: the handlers of [src/FastAPI_patient_management/main.py]
      (ids supplied by the client), as far as the properties below need them.

    Conventions of the model.

    - Python [float] values are taken at their exact rational value ([Q]);
      comparisons are therefore exact, while the rounding error of [/] and
      [**] on binary64 is not modelled.
    - A stored patient is a JSON object with the eight known keys, each of
      them possibly absent; a key bound to a value of the wrong JSON type is
      outside the model.
    - The backing file is either absent, unparsable as JSON, or holds a
      collection; a file that cannot be read as text, or whose JSON value is
      not an object of objects, is outside the model. *)

From Stdlib Require Import List String Ascii Bool ZArith NArith QArith Qround Lia.
From Stdlib Require Import Permutation Sorted.
From Stdlib Require Import Decimal DecimalString DecimalN DecimalPos DecimalFacts.
From Stdlib Require Import Lqa.
Import ListNotations.

#[local] Open Scope string_scope.
#[local] Open Scope Z_scope.

(** ** Python runtime fragments *)

Module Py.

(** *** [int(s)] on an ASCII string

    Surrounding whitespace is stripped, one sign is accepted, and the digits
    may be grouped by single underscores.  [is_space] is [str.isspace] on the
    ASCII range; digits and spaces outside ASCII are not modelled. *)

Definition is_space (c : ascii) : bool :=
  let n := nat_of_ascii c in
  (Nat.eqb n 32 || (Nat.leb 9 n && Nat.leb n 13)
   || (Nat.leb 28 n && Nat.leb n 31))%bool.

Definition is_digit (c : ascii) : bool :=
  let n := nat_of_ascii c in (Nat.leb 48 n && Nat.leb n 57)%bool.

Fixpoint lstrip (s : string) : string :=
  match s with
  | String c r => if is_space c then lstrip r else s
  | EmptyString => EmptyString
  end.

Fixpoint rstrip (s : string) : string :=
  match s with
  | String c r =>
      match rstrip r with
      | EmptyString => if is_space c then EmptyString else String c EmptyString
      | r' => String c r'
      end
  | EmptyString => EmptyString
  end.

Definition strip (s : string) : string := rstrip (lstrip s).

(** The digits of a literal, underscores removed; [after_digit] tells whether
    the previous character was a digit (an underscore is legal only there,
    and must be followed by a digit). *)
Fixpoint literal_digits (after_digit : bool) (s : string) : option string :=
  match s with
  | EmptyString => if after_digit then Some EmptyString else None
  | String c r =>
      if is_digit c then option_map (String c) (literal_digits true r)
      else if Ascii.eqb c "_" then
             if after_digit then literal_digits false r else None
      else None
  end.

Definition int_unsigned (s : string) : option Z :=
  match literal_digits false s with
  | Some ds => option_map Z.of_uint (NilEmpty.uint_of_string ds)
  | None => None
  end.

(** [None] stands for [ValueError]. *)
Definition int (s : string) : option Z :=
  match strip s with
  | String "-" r => option_map Z.opp (int_unsigned r)
  | String "+" r => int_unsigned r
  | r => int_unsigned r
  end.

(** [s[1:]] *)
Definition tail (s : string) : string :=
  match s with
  | String _ r => r
  | EmptyString => EmptyString
  end.

(** *** [format(n, "03d")] *)

Fixpoint zeros (n : nat) : string :=
  match n with
  | O => EmptyString
  | S k => String "0" (zeros k)
  end.

Definition zfill (width : nat) (s : string) : string :=
  zeros (width - String.length s) ++ s.

Definition decimal (n : N) : string := NilZero.string_of_uint (N.to_uint n).

Definition format_03d (n : Z) : string :=
  if n <? 0 then String "-" (zfill 2 (decimal (Z.abs_N n)))
  else zfill 3 (decimal (Z.abs_N n)).

(** *** [round(x, ndigits=2)]

    The nearest multiple of 1/100, a tie going to the even multiple. *)

Definition round_half_even (x : Q) : Z :=
  let f := Qfloor x in
  match (x - inject_Z f ?= 1 # 2)%Q with
  | Lt => f
  | Gt => f + 1
  | Eq => if Z.even f then f else f + 1
  end.

Definition round2 (x : Q) : Q := round_half_even (x * 100) # 100.

(** [x < y] on numbers *)
Definition Qltb (x y : Q) : bool := negb (Qle_bool y x).

(** *** [dict] with [str] keys: an association list in insertion order *)

Definition dict (V : Type) : Type := list (string * V).

Section Dict.
Context {V : Type}.

Definition keys (d : dict V) : list string := map fst d.
Definition values (d : dict V) : list V := map snd d.

(** [d.get(k)] / [d[k]] *)
Fixpoint get (k : string) (d : dict V) : option V :=
  match d with
  | [] => None
  | (k', v) :: r => if String.eqb k' k then Some v else get k r
  end.

(** [k in d] *)
Definition contains (k : string) (d : dict V) : bool :=
  match get k d with Some _ => true | None => false end.

(** [d[k] = v]: an existing key keeps its position, a new key goes last. *)
Fixpoint set (k : string) (v : V) (d : dict V) : dict V :=
  match d with
  | [] => [(k, v)]
  | (k', v') :: r =>
      if String.eqb k' k then (k, v) :: r else (k', v') :: set k v r
  end.

(** [del d[k]] *)
Definition del (k : string) (d : dict V) : dict V :=
  filter (fun kv => negb (String.eqb (fst kv) k)) d.
End Dict.

(** *** [sorted(xs, key=..., reverse=...)]

    The sort compares keys with [<] only and is stable.  With
    [reverse=True] the list is reversed, sorted, and reversed again, so that
    equal keys keep their original order in both directions. *)

Section Sorted.
Context {A K : Type} (ltb : K -> K -> bool) (key : A -> K).

Fixpoint insert (x : A) (l : list A) : list A :=
  match l with
  | [] => [x]
  | y :: r => if ltb (key y) (key x) then y :: insert x r else x :: y :: r
  end.

Definition stable_sort (l : list A) : list A := fold_right insert [] l.

Definition sorted (reverse : bool) (l : list A) : list A :=
  if reverse then List.rev (stable_sort (List.rev l)) else stable_sort l.
End Sorted.

(** [enumerate(l, start)] *)
Fixpoint enumerate {A : Type} (start : Z) (l : list A) : list (Z * A) :=
  match l with
  | [] => []
  | x :: r => (start, x) :: enumerate (start + 1) r
  end.

(** [max] of a non-empty sequence of integers *)
Definition max_of (first : Z) (rest : list Z) : Z := fold_left Z.max rest first.

(** Evaluating a generator whose items may raise: the first failure wins. *)
Fixpoint traverse {A B : Type} (f : A -> option B) (l : list A) : option (list B) :=
  match l with
  | [] => Some []
  | x :: r =>
      match f x with
      | None => None
      | Some y => option_map (cons y) (traverse f r)
      end
  end.

End Py.

(** ** Definitions shared by the two source files *)

Module Schema.

(** What a handler can raise. *)
Inductive error : Type :=
| HTTPException (status_code : Z) (detail : string)
| RequestValidationError   (* the request body does not build the model: 422 *)
| ValidationError          (* pydantic error raised inside a handler *)
| ValueError               (* [int()] on a malformed literal *)
| OSError (msg : string).  (* the file could not be written *)

Inductive result (A : Type) : Type :=
| Ok (a : A)
| Err (e : error).
Arguments Ok {A} a.
Arguments Err {A} e.

(** A JSON object with the keys of a patient, each possibly absent: a stored
    entry, or the keyword arguments given to a model. *)
Record patient_dict : Type := {
  d_id : option string;
  d_name : option string;
  d_city : option string;
  d_age : option Z;
  d_gender : option string;
  d_height : option Q;
  d_weight : option Q;
  d_bmi : option Q;
  d_verdict : option string
}.

(** An instance of the model [Patient]. *)
Record patient : Type := {
  id : string;
  name : string;
  city : string;
  age : Z;
  gender : string;
  height : Q;
  weight : Q
}.

Definition bmi (self : patient) : Q :=
  Py.round2 (weight self / height self ^ 2).

Definition verdict (self : patient) : string :=
  if Py.Qltb (bmi self) (185 # 10) then "Underweight"
  else if Py.Qltb (bmi self) 25 then "Healthy weight"
  else if Py.Qltb (bmi self) 30 then "Overweight"
  else "Obese".

(** [self.model_dump(exclude={'id'})]: the computed fields are included. *)
Definition model_dump_exclude_id (self : patient) : patient_dict :=
  {| d_id := None;
     d_name := Some (name self);
     d_city := Some (city self);
     d_age := Some (age self);
     d_gender := Some (gender self);
     d_height := Some (height self);
     d_weight := Some (weight self);
     d_bmi := Some (bmi self);
     d_verdict := Some (verdict self) |}.

(** [Literal['male', 'female', 'others']] *)
Definition is_gender (g : string) : bool :=
  existsb (String.eqb g) ["male"; "female"; "others"].

(** An instance of the model [PatientUpdate]; [None] is a field left unset. *)
Record patient_update : Type := {
  u_name : option string;
  u_city : option string;
  u_age : option Z;
  u_gender : option string;
  u_height : option Q;
  u_weight : option Q
}.

(** The constraint of an optional field holds when the field is unset. *)
Definition unset_or {A : Type} (check : A -> bool) (o : option A) : bool :=
  match o with Some v => check v | None => true end.

Definition PatientUpdate (body : patient_update) : result patient_update :=
  if (unset_or (Z.ltb 0) (u_age body) && unset_or is_gender (u_gender body)
      && unset_or (Py.Qltb 0) (u_height body)
      && unset_or (Py.Qltb 0) (u_weight body))%bool
  then Ok body else Err RequestValidationError.

Definition overwrite {A : Type} (existing : option A) (value : option A) : option A :=
  match value with Some v => Some v | None => existing end.

(** [for key, value in patient_update.model_dump(exclude_unset=True).items():
       existing_patient_info[key] = value] *)
Definition apply_items (existing_patient_info : patient_dict)
    (patient_update : patient_update) : patient_dict :=
  {| d_id := d_id existing_patient_info;
     d_name := overwrite (d_name existing_patient_info) (u_name patient_update);
     d_city := overwrite (d_city existing_patient_info) (u_city patient_update);
     d_age := overwrite (d_age existing_patient_info) (u_age patient_update);
     d_gender := overwrite (d_gender existing_patient_info) (u_gender patient_update);
     d_height := overwrite (d_height existing_patient_info) (u_height patient_update);
     d_weight := overwrite (d_weight existing_patient_info) (u_weight patient_update);
     d_bmi := d_bmi existing_patient_info;
     d_verdict := d_verdict existing_patient_info |}.

(** [existing_patient_info['id'] = patient_id] *)
Definition with_id (patient_id : string) (d : patient_dict) : patient_dict :=
  {| d_id := Some patient_id;
     d_name := d_name d; d_city := d_city d; d_age := d_age d;
     d_gender := d_gender d; d_height := d_height d; d_weight := d_weight d;
     d_bmi := d_bmi d; d_verdict := d_verdict d |}.

(** [x.get(key, 0)] for the keys a sort may name *)
Definition get_number (key : string) (x : patient_dict) : Q :=
  let field :=
    if String.eqb key "height" then d_height x
    else if String.eqb key "weight" then d_weight x
    else if String.eqb key "bmi" then d_bmi x
    else None in
  match field with Some v => v | None => 0%Q end.

(** *** The backing file and the handler monad *)

Definition collection : Type := Py.dict patient_dict.

Inductive document : Type :=
| NoFile                       (* [open] raises [FileNotFoundError] *)
| Unparsable                   (* [json.load] raises [JSONDecodeError] *)
| Content (data : collection). (* [json.load] returns [data] *)

(** [write_failure] is the message of the exception a write would raise,
    [None] when writing succeeds. *)
Record world : Type := {
  file : document;
  write_failure : option string
}.

Definition M (A : Type) : Type := world -> result A * world.

Definition ret {A : Type} (a : A) : M A := fun w => (Ok a, w).
Definition raise {A : Type} (e : error) : M A := fun w => (Err e, w).
Definition bind {A B : Type} (m : M A) (k : A -> M B) : M B :=
  fun w => match m w with
           | (Ok a, w') => k a w'
           | (Err e, w') => (Err e, w')
           end.
Definition lift {A : Type} (r : result A) : M A := fun w => (r, w).

Declare Scope handler_scope.
Delimit Scope handler_scope with handler.
Notation "x <- m ;; k" := (bind m (fun x => k))
  (at level 61, m at next level, right associativity) : handler_scope.
Notation "m ;;; k" := (bind m (fun _ => k))
  (at level 61, right associativity) : handler_scope.

Definition load_data : M collection :=
  fun w => match file w with
           | NoFile => (Ok [], w)
           | Unparsable => (Err (HTTPException 500 "Data file is corrupted"), w)
           | Content data => (Ok data, w)
           end.

(** The write itself; the two files differ in what they do with a failure. *)
Definition write_file (data : collection) : world -> option string * world :=
  fun w => match write_failure w with
           | Some e => (Some e, w)
           | None => (None, {| file := Content data; write_failure := None |})
           end.

End Schema.

(** ** [src/data.py] *)

Module Data.
Import Schema.
#[local] Open Scope handler_scope.

(** The constructor of [Patient] on keyword arguments: every field required, [age], [height] and [weight]
    strictly positive; the extra keys [bmi] and [verdict] are ignored. *)
Definition Patient (kw : patient_dict) : result patient :=
  match d_id kw, d_name kw, d_city kw, d_age kw, d_gender kw, d_height kw, d_weight kw with
  | Some i, Some n, Some c, Some a, Some g, Some h, Some w =>
      if ((0 <? a) && is_gender g && Py.Qltb 0 h && Py.Qltb 0 w)%bool
      then Ok {| id := i; name := n; city := c; age := a; gender := g;
                 height := h; weight := w |}
      else Err ValidationError
  | _, _, _, _, _, _, _ => Err ValidationError
  end.

Definition save_data (data : collection) : M unit :=
  fun w => match write_file data w with
           | (Some e, w') => (Err (HTTPException 500 ("Failed to save data: " ++ e)), w')
           | (None, w') => (Ok tt, w')
           end.

(** The sort key [int(x[0][1:])] of every item, computed before sorting. *)
Definition decorate (items : collection) : option (list (Z * (string * patient_dict))) :=
  Py.traverse (fun x => option_map (fun k => (k, x)) (Py.int (Py.tail (fst x)))) items.

Definition new_id (index : Z) : string := "P" ++ Py.format_03d index.

Definition renumber_patients (data : collection) : result collection :=
  match data with
  | [] => Ok []
  | _ =>
      let patients_list := data in
      match decorate patients_list with
      | None => Err ValueError
      | Some keyed =>
          let patients_list := map snd (Py.stable_sort Z.ltb fst keyed) in
          Ok (fold_left
                (fun renumbered_data ix =>
                   Py.set (new_id (fst ix)) (snd (snd ix)) renumbered_data)
                (Py.enumerate 1 patients_list) [])
      end
  end.

Definition get_next_patient_id (data : collection) : result string :=
  match data with
  | [] => Ok "P001"
  | _ =>
      match Py.traverse (fun pid => Py.int (Py.tail pid)) (Py.keys data) with
      | Some (n :: ns) => Ok (new_id (Py.max_of n ns + 1))
      | _ => Err ValueError
      end
  end.


Definition view_patient (patient_id : string) : M patient_dict :=
  data <- load_data ;;
  match Py.get patient_id data with
  | Some x => ret x
  | None => raise (HTTPException 404 "Patient not found!")
  end.

Definition valid_fields : list string := ["height"; "weight"; "bmi"].

Definition dq : string := String "034"%char EmptyString.

(** [order] is [None] when the query parameter is left to its default. *)
Definition sort_patients (sort_by : string) (order : option string) : M (list patient_dict) :=
  let order := match order with Some o => o | None => "asc" end in
  if negb (existsb (String.eqb sort_by) valid_fields) then
    raise (HTTPException 400 "Invalid field. Must be one of: height, weight, bmi")
  else if negb (existsb (String.eqb order) ["asc"; "desc"]) then
    raise (HTTPException 400
             ("Order must be " ++ dq ++ "asc" ++ dq ++ " or " ++ dq ++ "desc" ++ dq))
  else
    data <- load_data ;;
    let order_value := String.eqb order "desc" in
    ret (Py.sorted Py.Qltb (get_number sort_by) order_value (Py.values data)).

Record created : Type := {
  created_message : string;
  created_patient_id : string
}.

Definition create_patient (patient : patient) : M created :=
  data <- load_data ;;
  new_patient_id <- lift (get_next_patient_id data) ;;
  let data := Py.set new_patient_id (model_dump_exclude_id patient) data in
  save_data data ;;;
  ret {| created_message := "Patient created successfully";
         created_patient_id := new_patient_id |}.

Record updated : Type := {
  updated_message : string;
  updated_patient_id : string;
  updated_patient : patient_dict
}.

Definition update_patient (patient_id : string) (patient_update : patient_update) : M updated :=
  data <- load_data ;;
  match Py.get patient_id data with
  | None => raise (HTTPException 404 "Patient not found")
  | Some existing_patient_info =>
      let existing_patient_info := apply_items existing_patient_info patient_update in
      let existing_patient_info := with_id patient_id existing_patient_info in
      patient_pydantic_obj <- lift (Patient existing_patient_info) ;;
      let existing_patient_info := model_dump_exclude_id patient_pydantic_obj in
      let data := Py.set patient_id existing_patient_info data in
      save_data data ;;;
      ret {| updated_message := "Patient updated successfully";
             updated_patient_id := patient_id;
             updated_patient := existing_patient_info |}
  end.

Record deleted : Type := {
  deleted_message : string;
  deleted_patient : patient_dict;
  new_patient_count : Z
}.

Definition delete_patient (patient_id : string) : M deleted :=
  data <- load_data ;;
  match Py.get patient_id data with
  | None => raise (HTTPException 404 "Patient not found")
  | Some deleted_patient =>
      let data := Py.del patient_id data in
      renumbered_data <- lift (renumber_patients data) ;;
      save_data renumbered_data ;;;
      ret {| deleted_message := "Patient deleted successfully and IDs renumbered";
             deleted_patient := deleted_patient;
             new_patient_count := Z.of_nat (List.length renumbered_data) |}
  end.

(** The routes: the framework builds the body model before it calls the
    handler, and answers 422 when the body does not validate. *)
Definition request_body {A : Type} (r : result A) : M A :=
  match r with
  | Ok a => ret a
  | Err _ => raise RequestValidationError
  end.

Definition post_create (body : patient_dict) : M created :=
  patient <- request_body (Patient body) ;; create_patient patient.

Definition put_edit (patient_id : string) (body : patient_update) : M updated :=
  patient_update <- request_body (PatientUpdate body) ;;
  update_patient patient_id patient_update.

End Data.

(** ** [src/FastAPI_patient_management/main.py] *)

Module Variant.
Import Schema.
#[local] Open Scope handler_scope.

(** The constructor of [Patient] on keyword arguments; in this file the field
    [weight] carries no bound. *)
Definition Patient (kw : patient_dict) : result patient :=
  match d_id kw, d_name kw, d_city kw, d_age kw, d_gender kw, d_height kw, d_weight kw with
  | Some i, Some n, Some c, Some a, Some g, Some h, Some w =>
      if ((0 <? a) && is_gender g && Py.Qltb 0 h)%bool
      then Ok {| id := i; name := n; city := c; age := a; gender := g;
                 height := h; weight := w |}
      else Err ValidationError
  | _, _, _, _, _, _, _ => Err ValidationError
  end.

Definition save_data (data : collection) : M unit :=
  fun w => match write_file data w with
           | (Some e, w') => (Err (OSError e), w')
           | (None, w') => (Ok tt, w')
           end.

Record JSONResponse : Type := {
  status_code : Z;
  message : string
}.

Definition create_patient (patient : patient) : M JSONResponse :=
  data <- load_data ;;
  if Py.contains (id patient) data then
    raise (HTTPException 400 "Patient already exist")
  else
    let data := Py.set (id patient) (model_dump_exclude_id patient) data in
    save_data data ;;;
    ret {| status_code := 201; message := "Patient created successfully" |}.

Definition update_patient (patient_id : string) (patient_update : patient_update)
  : M JSONResponse :=
  data <- load_data ;;
  match Py.get patient_id data with
  | None => raise (HTTPException 404 "Patient not found")
  | Some existing_patient_info =>
      let existing_patient_info := apply_items existing_patient_info patient_update in
      let existing_patient_info := with_id patient_id existing_patient_info in
      patient_pydantic_obg <- lift (Patient existing_patient_info) ;;
      let existing_patient_info := model_dump_exclude_id patient_pydantic_obg in
      let data := Py.set patient_id existing_patient_info data in
      save_data data ;;;
      ret {| status_code := 200; message := "Patient Updated" |}
  end.

Definition patients : M collection := load_data.

Definition view_patient (patient_id : string) : M patient_dict :=
  data <- load_data ;;
  match Py.get patient_id data with
  | Some x => ret x
  | None => raise (HTTPException 404 "Patient not Found!")
  end.

Definition valid_fields : list string := ["height"; "weight"; "bmi"].

Definition sort_patients (sort_by : string) (order : option string) : M (list patient_dict) :=
  let order := match order with Some o => o | None => "asc" end in
  if negb (existsb (String.eqb sort_by) valid_fields) then
    raise (HTTPException 400 "Invalid selection from ['height', 'weight', 'bmi']")
  else if negb (existsb (String.eqb order) ["asc"; "desc"]) then
    raise (HTTPException 400 "Invalid order between asc or desc")
  else
    data <- load_data ;;
    let order_value := if String.eqb order "desc" then true else false in
    ret (Py.sorted Py.Qltb (get_number sort_by) order_value (Py.values data)).

Definition delete_patient (patient_id : string) : M JSONResponse :=
  data <- load_data ;;
  match Py.get patient_id data with
  | None => raise (HTTPException 404 "Patient not found")
  | Some _ =>
      let data := Py.del patient_id data in
      save_data data ;;;
      ret {| status_code := 200; message := "Patient deleted successfully" |}
  end.

Definition request_body {A : Type} (r : result A) : M A :=
  match r with
  | Ok a => ret a
  | Err _ => raise RequestValidationError
  end.

Definition post_create (body : patient_dict) : M JSONResponse :=
  patient <- request_body (Patient body) ;; create_patient patient.

Definition put_edit (patient_id : string) (body : patient_update) : M JSONResponse :=
  patient_update <- request_body (PatientUpdate body) ;;
  update_patient patient_id patient_update.

End Variant.

(** ** Vocabulary of the properties *)

Import Schema.

Fixpoint all_digits (s : string) : bool :=
  match s with
  | EmptyString => true
  | String c r => (Py.is_digit c && all_digits r)%bool
  end.

(** The letter P followed by at least one digit. *)
Definition is_patient_id (k : string) : bool :=
  match k with
  | String c (String d r) => (Ascii.eqb c "P" && all_digits (String d r))%bool
  | _ => false
  end.

(** The numeric suffix of an id. *)
Definition suffix (k : string) : Z :=
  match Py.int (Py.tail k) with Some n => n | None => 0 end.

(** The run [P001 .. P{n}]. *)
Definition ids_upto (n : nat) : list string :=
  map (fun i => Data.new_id (Z.of_nat i)) (seq 1 n).

Definition dense_ids (data : collection) : Prop :=
  Py.keys data = ids_upto (List.length data).

(** A well-formed collection: a [dict] has no duplicate key, and every key
    is a patient id. *)
Definition well_formed (data : collection) : Prop :=
  NoDup (Py.keys data) /\ Forall (fun k => is_patient_id k = true) (Py.keys data).

(** The collection a world holds, as [load_data] reads it. *)
Definition stored (w : world) : collection :=
  match file w with
  | Content data => data
  | NoFile | Unparsable => []
  end.

(** One successful mutating operation. *)
Inductive step (w w' : world) : Prop :=
| step_create (patient : patient) (r : Data.created) :
    Data.create_patient patient w = (Ok r, w') -> step w w'
| step_update (patient_id : string) (patch : patient_update) (r : Data.updated) :
    Data.update_patient patient_id patch w = (Ok r, w') -> step w w'
| step_delete (patient_id : string) (r : Data.deleted) :
    Data.delete_patient patient_id w = (Ok r, w') -> step w w'.

(** The handler returned normally. *)
Definition succeeded {A : Type} (x : result A * world) : Prop :=
  match fst x with Ok _ => True | Err _ => False end.

Inductive reachable : world -> Prop :=
| reachable_empty (w : world) :
    file w = NoFile \/ file w = Content [] -> reachable w
| reachable_step (w w' : world) :
    reachable w -> step w w' -> reachable w'.

(** [x] may stand before [y] in an ascending sequence: [y] is not smaller. *)
Definition before {A K : Type} (ltb : K -> K -> bool) (key : A -> K) (x y : A) : Prop :=
  ltb (key y) (key x) = false.

(** The entries of [l] whose sort key equals [v], in the order of [l]. *)
Definition with_key (key : patient_dict -> Q) (v : Q) (l : list patient_dict)
  : list patient_dict :=
  filter (fun x => Qeq_bool (key x) v) l.

Definition with_suffix (n : Z) (l : collection) : collection :=
  filter (fun x => suffix (fst x) =? n) l.

(** *** Sample data *)

Definition mk_patient (n c : string) (a : Z) (g : string) (h w : Q) : patient :=
  {| id := "ignored"; name := n; city := c; age := a; gender := g;
     height := h; weight := w |}.

Definition ann : patient := mk_patient "Ann" "Oslo" 30 "female" (17 # 10) 60.
Definition bob : patient := mk_patient "Bob" "Rome" 40 "male" (17 # 10) 90.
Definition cyd : patient := mk_patient "Cyd" "Bonn" 50 "others" (17 # 10) 60.

Definition body_of (p : patient) : patient_dict :=
  with_id (id p) (model_dump_exclude_id p).

Definition empty_world : world := {| file := NoFile; write_failure := None |}.

Definition three_patients : collection :=
  [("P001", model_dump_exclude_id ann);
   ("P002", model_dump_exclude_id bob);
   ("P003", model_dump_exclude_id cyd)].

Definition sample_world : world :=
  {| file := Content three_patients; write_failure := None |}.

Definition weight_only (w : Q) : patient_update :=
  {| u_name := None; u_city := None; u_age := None; u_gender := None;
     u_height := None; u_weight := Some w |}.

Definition height_only (h : Q) : patient_update :=
  {| u_name := None; u_city := None; u_age := None; u_gender := None;
     u_height := Some h; u_weight := None |}.

(** A request body whose weight is zero, and one whose weight is negative. *)
Definition dan : patient := mk_patient "Dan" "Lyon" 20 "male" (18 # 10) 0.
Definition eve : patient := mk_patient "Eve" "Kyiv" 25 "female" (16 # 10) (-5).


(** *** Vocabulary of the further properties *)

(** A stored record as [model_dump] writes it for a patient that validates:
    every field present and in range, [bmi] and [verdict] computed from the
    stored height and weight. *)
Definition valid_record (u : patient_dict) : Prop :=
  exists p : patient,
    u = model_dump_exclude_id p
    /\ 0 < age p /\ is_gender (gender p) = true
    /\ (0 < height p)%Q /\ (0 < weight p)%Q.

(** One successful mutating request, as the routes of [data.py] serve it. *)
Inductive request (w w' : world) : Prop :=
| request_create (body : patient_dict) (r : Data.created) :
    Data.post_create body w = (Ok r, w') -> request w w'
| request_edit (patient_id : string) (body : patient_update) (r : Data.updated) :
    Data.put_edit patient_id body w = (Ok r, w') -> request w w'
| request_delete (patient_id : string) (r : Data.deleted) :
    Data.delete_patient patient_id w = (Ok r, w') -> request w w'.

(** The states the routes reach from an empty collection. *)
Inductive served : world -> Prop :=
| served_empty (w : world) :
    file w = NoFile \/ file w = Content [] -> served w
| served_request (w w' : world) :
    served w -> request w w' -> served w'.

Definition empty_patch : patient_update :=
  {| u_name := None; u_city := None; u_age := None; u_gender := None;
     u_height := None; u_weight := None |}.

(** The four verdicts in ascending order of bmi. *)
Definition verdict_rank (v : string) : Z :=
  if String.eqb v "Underweight" then 0
  else if String.eqb v "Healthy weight" then 1
  else if String.eqb v "Overweight" then 2
  else 3.

Definition unwritable (msg : string) (data : collection) : world :=
  {| file := Content data; write_failure := Some msg |}.

(** * Properties *)

(** ** Evaluation on small inputs *)

Example int_padded : Py.int "007" = Some 7. Proof. reflexivity. Qed.
Example int_spaces : Py.int " +1_000 " = Some 1000. Proof. reflexivity. Qed.
Example int_negative : Py.int "-12" = Some (-12). Proof. reflexivity. Qed.
Example int_empty : Py.int "" = None. Proof. reflexivity. Qed.
Example int_double_underscore : Py.int "1__0" = None. Proof. reflexivity. Qed.
Example int_letters : Py.int "bc" = None. Proof. reflexivity. Qed.
Example format_1 : Py.format_03d 1 = "001". Proof. reflexivity. Qed.
Example format_1000 : Py.format_03d 1000 = "1000". Proof. reflexivity. Qed.
Example format_neg : Py.format_03d (-4) = "-04". Proof. reflexivity. Qed.
Example round_tie_even : Py.round2 (2345 # 1000) = 234 # 100. Proof. reflexivity. Qed.
Example round_tie_odd : Py.round2 (2335 # 1000) = 234 # 100. Proof. reflexivity. Qed.
Example round_up : Py.round2 (70 / (175 # 100) ^ 2) = 2286 # 100. Proof. reflexivity. Qed.
Example sorted_desc_stable :
  Py.sorted Z.ltb fst true [(1, "a"); (2, "b"); (1, "c")] = [(2, "b"); (1, "a"); (1, "c")].
Proof. reflexivity. Qed.
Example sorted_asc_stable :
  Py.sorted Z.ltb fst false [(1, "a"); (2, "b"); (1, "c"); (0, "d")]
  = [(0, "d"); (1, "a"); (1, "c"); (2, "b")].
Proof. reflexivity. Qed.

(** ** [int] and [format_03d] *)

Section IntFacts.

Lemma digit_cases (c : ascii) :
  Py.is_digit c = true ->
  (c = "0" \/ c = "1" \/ c = "2" \/ c = "3" \/ c = "4" \/ c = "5" \/ c = "6"
   \/ c = "7" \/ c = "8" \/ c = "9")%char.
Proof.
  destruct c as [[|] [|] [|] [|] [|] [|] [|] [|]]; cbv; intros H;
    try discriminate H; tauto.
Qed.

Lemma digit_not_space c : Py.is_digit c = true -> Py.is_space c = false.
Proof.
  intros H. destruct (digit_cases c H) as [E|[E|[E|[E|[E|[E|[E|[E|[E|E]]]]]]]]];
    subst; reflexivity.
Qed.

Lemma rstrip_digits s : all_digits s = true -> Py.rstrip s = s.
Proof.
  induction s as [|c r IH]; simpl; [reflexivity|].
  intros H. apply andb_prop in H as [Hc Hr].
  rewrite (IH Hr). destruct r; [now rewrite (digit_not_space c Hc)|reflexivity].
Qed.

Lemma strip_digits s : all_digits s = true -> Py.strip s = s.
Proof.
  intros H. unfold Py.strip.
  destruct s as [|c r]; [reflexivity|].
  simpl in H. apply andb_prop in H as [Hc Hr].
  simpl Py.lstrip. rewrite (digit_not_space c Hc).
  apply rstrip_digits. simpl. now rewrite Hc, Hr.
Qed.

Lemma literal_digits_digits s b :
  all_digits s = true -> (s <> EmptyString \/ b = true) ->
  Py.literal_digits b s = Some s.
Proof.
  revert b. induction s as [|c r IH]; simpl; intros b H Hne.
  - destruct Hne as [Hne| ->]; [now elim Hne|reflexivity].
  - apply andb_prop in H as [Hc Hr]. rewrite Hc.
    rewrite (IH true Hr); [reflexivity|now right].
Qed.

Lemma uint_of_digits s :
  all_digits s = true -> exists d, NilEmpty.uint_of_string s = Some d.
Proof.
  induction s as [|c r IH]; simpl; intros H; [now eexists|].
  apply andb_prop in H as [Hc Hr]. destruct (IH Hr) as [d ->].
  destruct (digit_cases c Hc) as [E|[E|[E|[E|[E|[E|[E|[E|[E|E]]]]]]]]];
    subst; simpl; now eexists.
Qed.

Lemma int_digits s :
  all_digits s = true -> s <> EmptyString ->
  Py.int s = option_map Z.of_uint (NilEmpty.uint_of_string s).
Proof.
  intros H Hne. unfold Py.int. rewrite (strip_digits s H).
  assert (Hu : Py.int_unsigned s = option_map Z.of_uint (NilEmpty.uint_of_string s)).
  { unfold Py.int_unsigned. rewrite literal_digits_digits; auto. }
  destruct s as [|c r]; [now elim Hne|].
  simpl in H. apply andb_prop in H as [Hc _].
  destruct (digit_cases c Hc) as [E|[E|[E|[E|[E|[E|[E|[E|[E|E]]]]]]]]];
    subst; exact Hu.
Qed.

Lemma int_digits_some s :
  all_digits s = true -> s <> EmptyString -> exists n, Py.int s = Some n /\ 0 <= n.
Proof.
  intros H Hne. rewrite (int_digits s H Hne).
  destruct (uint_of_digits s H) as [d ->]. simpl. eexists; split; [reflexivity|].
  unfold Z.of_uint. apply N2Z.is_nonneg.
Qed.

Lemma all_digits_app s t :
  all_digits (s ++ t) = (all_digits s && all_digits t)%bool.
Proof. induction s; simpl; [reflexivity|]. now rewrite IHs, andb_assoc. Qed.

Lemma all_digits_zeros n : all_digits (Py.zeros n) = true.
Proof. induction n; simpl; auto. Qed.

Lemma all_digits_of_uint d : all_digits (NilEmpty.string_of_uint d) = true.
Proof. induction d; simpl; auto. Qed.

Lemma decimal_nilempty n :
  Py.decimal n = NilEmpty.string_of_uint (N.to_uint n) /\ N.to_uint n <> Nil.
Proof.
  unfold Py.decimal, NilZero.string_of_uint.
  destruct n as [|p]; simpl; [split; [reflexivity|discriminate]|].
  pose proof (DecimalPos.Unsigned.to_uint_nonnil p) as Hn.
  destruct (Pos.to_uint p); [now elim Hn| | | | | | | | | |]; split; auto; discriminate.
Qed.

Lemma all_digits_decimal n : all_digits (Py.decimal n) = true.
Proof. rewrite (proj1 (decimal_nilempty n)). apply all_digits_of_uint. Qed.

Lemma decimal_nonempty n : Py.decimal n <> EmptyString.
Proof.
  destruct (decimal_nilempty n) as [-> Hn].
  destruct (N.to_uint n); [now elim Hn| | | | | | | | | |]; discriminate.
Qed.

Lemma uint_of_zeros k s :
  NilEmpty.uint_of_string (Py.zeros k ++ s)
  = option_map (Nat.iter k D0) (NilEmpty.uint_of_string s).
Proof.
  induction k; simpl.
  - now destruct (NilEmpty.uint_of_string s).
  - rewrite IHk. now destruct (NilEmpty.uint_of_string s).
Qed.

Lemma of_uint_zeros k d : Z.of_uint (Nat.iter k D0 d) = Z.of_uint d.
Proof. induction k; simpl; auto. Qed.

Lemma int_zfill w n : Py.int (Py.zfill w (Py.decimal n)) = Some (Z.of_N n).
Proof.
  unfold Py.zfill. rewrite int_digits.
  - rewrite uint_of_zeros. destruct (decimal_nilempty n) as [-> _].
    rewrite NilEmpty.usu. simpl. rewrite of_uint_zeros.
    unfold Z.of_uint. f_equal. f_equal. apply DecimalN.Unsigned.of_to.
  - now rewrite all_digits_app, all_digits_zeros, all_digits_decimal.
  - intros E. apply (decimal_nonempty n).
    destruct (Py.zeros _); [exact E|discriminate E].
Qed.

Lemma int_format_03d n : 0 <= n -> Py.int (Py.format_03d n) = Some n.
Proof.
  intros Hn. unfold Py.format_03d.
  destruct (Z.ltb_spec n 0); [lia|].
  rewrite int_zfill. f_equal. rewrite N2Z.inj_abs_N. lia.
Qed.

End IntFacts.

(** ** The stable sort and the dictionary *)

Section SortFacts.
Context {A K : Type} (ltb : K -> K -> bool) (key : A -> K).

Hypothesis ltb_asym : forall a b, ltb a b = true -> ltb b a = false.
Hypothesis ltb_negtrans :
  forall a b c, ltb b a = false -> ltb c b = false -> ltb c a = false.

Lemma insert_perm x l : Permutation (Py.insert ltb key x l) (x :: l).
Proof.
  induction l as [|y r IH]; simpl; [reflexivity|].
  destruct (ltb (key y) (key x)); [|reflexivity].
  rewrite IH. apply perm_swap.
Qed.

Lemma stable_sort_perm l : Permutation (Py.stable_sort ltb key l) l.
Proof.
  induction l as [|x r IH]; simpl; [reflexivity|].
  rewrite insert_perm. now constructor.
Qed.

Lemma insert_sorted x l :
  StronglySorted (before ltb key) l -> StronglySorted (before ltb key) (Py.insert ltb key x l).
Proof.
  induction 1 as [|y r Hr IH Hy]; simpl.
  - repeat constructor.
  - destruct (ltb (key y) (key x)) eqn:E.
    + constructor; [exact IH|].
      apply (Permutation_Forall (Permutation_sym (insert_perm x r))).
      constructor; [|exact Hy]. apply ltb_asym, E.
    + constructor; [now constructor|].
      constructor; [exact E|].
      eapply Forall_impl; [|exact Hy].
      intros z Hz. unfold before in *. eapply ltb_negtrans; eauto.
Qed.

Lemma stable_sort_sorted l : StronglySorted (before ltb key) (Py.stable_sort ltb key l).
Proof.
  induction l as [|x r IH]; simpl; [constructor|]. now apply insert_sorted.
Qed.

(** A class of elements none of which is smaller than another is moved as
    a block. *)
Lemma filter_insert (P : A -> bool) x l :
  (forall y, P x = true -> P y = true -> ltb (key y) (key x) = false) ->
  filter P (Py.insert ltb key x l) = filter P (x :: l).
Proof.
  intros HP. induction l as [|y r IH]; simpl; [reflexivity|].
  destruct (ltb (key y) (key x)) eqn:E; [|reflexivity].
  simpl. rewrite IH. simpl.
  destruct (P x) eqn:Px, (P y) eqn:Py; try reflexivity.
  rewrite (HP y) in E by auto. discriminate E.
Qed.

Lemma filter_stable_sort (P : A -> bool) l :
  (forall x y, P x = true -> P y = true -> ltb (key y) (key x) = false) ->
  filter P (Py.stable_sort ltb key l) = filter P l.
Proof.
  intros HP. induction l as [|x r IH]; simpl; [reflexivity|].
  rewrite filter_insert by (intros; now apply HP). simpl. now rewrite IH.
Qed.

Lemma sorted_perm reverse l : Permutation (Py.sorted ltb key reverse l) l.
Proof.
  unfold Py.sorted. destruct reverse; [|apply stable_sort_perm].
  rewrite <- Permutation_rev, stable_sort_perm. symmetry. apply Permutation_rev.
Qed.

Lemma filter_sorted (P : A -> bool) reverse l :
  (forall x y, P x = true -> P y = true -> ltb (key y) (key x) = false) ->
  filter P (Py.sorted ltb key reverse l) = filter P l.
Proof.
  intros HP. unfold Py.sorted. destruct reverse; [|now apply filter_stable_sort].
  rewrite filter_rev, filter_stable_sort by exact HP.
  now rewrite filter_rev, rev_involutive.
Qed.

Lemma strongly_sorted_snoc (R : A -> A -> Prop) l x :
  StronglySorted R l -> Forall (fun y => R y x) l -> StronglySorted R (l ++ [x]).
Proof.
  induction 1 as [|y r Hr IH Hy]; simpl; intros Hx.
  - repeat constructor.
  - inversion Hx; subst. constructor; [now apply IH|].
    apply Forall_app. split; [exact Hy|]. now constructor.
Qed.

Lemma strongly_sorted_rev (R : A -> A -> Prop) l :
  StronglySorted R l -> StronglySorted (fun x y => R y x) (List.rev l).
Proof.
  induction 1 as [|y r Hr IH Hy]; simpl; [constructor|].
  apply strongly_sorted_snoc; [exact IH|].
  apply Forall_rev. exact Hy.
Qed.

Lemma sorted_descending l :
  StronglySorted (fun x y => before ltb key y x) (Py.sorted ltb key true l).
Proof. apply strongly_sorted_rev with (R := before ltb key), stable_sort_sorted. Qed.

(** Decorate, sort, undecorate. *)
Lemma insert_decorated x (l : list A) :
  Py.insert ltb fst (key x, x) (map (fun y => (key y, y)) l)
  = map (fun y => (key y, y)) (Py.insert ltb key x l).
Proof.
  induction l as [|y r IH]; simpl; [reflexivity|].
  destruct (ltb (key y) (key x)); simpl; [now rewrite IH|reflexivity].
Qed.

Lemma stable_sort_decorated (l : list A) :
  map snd (Py.stable_sort ltb fst (map (fun y => (key y, y)) l))
  = Py.stable_sort ltb key l.
Proof.
  assert (H : Py.stable_sort ltb fst (map (fun y => (key y, y)) l)
              = map (fun y => (key y, y)) (Py.stable_sort ltb key l)).
  { induction l as [|x r IH]; simpl; [reflexivity|].
    now rewrite IH, insert_decorated. }
  rewrite H, map_map. simpl. apply map_id.
Qed.
End SortFacts.

Section DictFacts.
Context {V : Type}.
Implicit Types (d : Py.dict V) (k : string) (v : V).

Lemma get_none_iff k d : Py.get k d = None <-> ~ In k (Py.keys d).
Proof.
  induction d as [|[k' v'] r IH]; simpl; [tauto|].
  destruct (String.eqb_spec k' k); [split; [discriminate|tauto]|].
  rewrite IH. tauto.
Qed.

Lemma get_in k v d : Py.get k d = Some v -> In (k, v) d.
Proof.
  induction d as [|[k' v'] r IH]; simpl; [discriminate|].
  destruct (String.eqb_spec k' k); [intros [= ->]; subst; now left|auto].
Qed.

Lemma in_get k v d : NoDup (Py.keys d) -> In (k, v) d -> Py.get k d = Some v.
Proof.
  induction d as [|[k' v'] r IH]; simpl; [tauto|].
  intros Hnd [E|Hin]; inversion Hnd; subst.
  - injection E as -> ->. now rewrite String.eqb_refl.
  - destruct (String.eqb_spec k' k); [|auto].
    subst. elim H1. change k with (fst (k, v)). now apply in_map.
Qed.

Lemma set_fresh k v d : Py.get k d = None -> Py.set k v d = (d ++ [(k, v)])%list.
Proof.
  induction d as [|[k' v'] r IH]; simpl; [reflexivity|].
  destruct (String.eqb k' k); [discriminate|]. intros H. now rewrite IH.
Qed.

Lemma keys_set_present k v d :
  Py.get k d <> None -> Py.keys (Py.set k v d) = Py.keys d.
Proof.
  induction d as [|[k' v'] r IH]; simpl; [congruence|].
  destruct (String.eqb_spec k' k); simpl; [now subst|].
  intros H. now rewrite IH.
Qed.

Lemma get_set_same k v d : Py.get k (Py.set k v d) = Some v.
Proof.
  induction d as [|[k' v'] r IH]; simpl; [now rewrite String.eqb_refl|].
  destruct (String.eqb_spec k' k); simpl.
  - now rewrite String.eqb_refl.
  - destruct (String.eqb_spec k' k); [contradiction|exact IH].
Qed.

Lemma get_set_other k k' v d : k' <> k -> Py.get k' (Py.set k v d) = Py.get k' d.
Proof.
  intros Hne. induction d as [|[k0 v0] r IH]; simpl.
  - destruct (String.eqb_spec k k'); [congruence|reflexivity].
  - destruct (String.eqb_spec k0 k); simpl.
    + subst. destruct (String.eqb_spec k k'); [congruence|reflexivity].
    + now rewrite IH.
Qed.

Lemma in_del kv k d : In kv (Py.del k d) <-> In kv d /\ fst kv <> k.
Proof.
  unfold Py.del. rewrite filter_In.
  destruct (String.eqb_spec (fst kv) k); simpl; intuition congruence.
Qed.

Lemma keys_del k d :
  Py.keys (Py.del k d) = filter (fun k' => negb (String.eqb k' k)) (Py.keys d).
Proof.
  induction d as [|[k' v'] r IH]; simpl; [reflexivity|].
  destruct (String.eqb k' k); simpl; now rewrite IH.
Qed.

Lemma del_absent k d : Py.get k d = None -> Py.del k d = d.
Proof.
  induction d as [|[k' v'] r IH]; simpl; [reflexivity|].
  destruct (String.eqb k' k); simpl; [discriminate|].
  intros H. now rewrite IH.
Qed.

Lemma length_del k v d :
  NoDup (Py.keys d) -> Py.get k d = Some v ->
  S (List.length (Py.del k d)) = List.length d.
Proof.
  induction d as [|[k' v'] r IH]; simpl; [discriminate|].
  intros Hnd. inversion Hnd; subst.
  destruct (String.eqb_spec k' k); simpl.
  - intros _. subst. fold (Py.del k r).
    rewrite del_absent; [reflexivity|]. now apply get_none_iff.
  - intros H. fold (Py.del k r). now rewrite (IH H2 H).
Qed.

Lemma fold_set_fresh (l : list (string * V)) d :
  NoDup (Py.keys d ++ map fst l) ->
  fold_left (fun acc kv => Py.set (fst kv) (snd kv) acc) l d = (d ++ l)%list.
Proof.
  revert d. induction l as [|[k v] r IH]; simpl; intros d Hnd.
  - now rewrite List.app_nil_r.
  - rewrite set_fresh.
    + rewrite IH; [now rewrite <- app_assoc|].
      unfold Py.keys in *. rewrite map_app. simpl. now rewrite <- app_assoc.
    + apply get_none_iff. intros Hin.
      apply NoDup_remove_2 in Hnd. apply Hnd, in_or_app. now left.
Qed.
End DictFacts.

(** ** Derived fields *)

Lemma Qltb_lt x y : Py.Qltb x y = true <-> (x < y)%Q.
Proof.
  unfold Py.Qltb. rewrite negb_true_iff, <- not_true_iff_false, Qle_bool_iff.
  split; [apply Qnot_le_lt|apply Qlt_not_le].
Qed.

Lemma Qltb_ge x y : Py.Qltb x y = false <-> (y <= x)%Q.
Proof.
  unfold Py.Qltb. rewrite negb_false_iff. apply Qle_bool_iff.
Qed.







(** ** The record store *)



(** C8.  On an id the collection does not hold, [view_patient],
    [update_patient] and [delete_patient] each raise the 404 error and return
    the world they were given: nothing is written, whether or not a write
    would have succeeded. *)
Theorem not_found_leaves_store (w : world) (data : collection) (patient_id : string) :
  load_data w = (Ok data, w) ->
  Py.contains patient_id data = false ->
  Data.view_patient patient_id w = (Err (HTTPException 404 "Patient not found!"), w)
  /\ (forall patch,
        Data.update_patient patient_id patch w
        = (Err (HTTPException 404 "Patient not found"), w))
  /\ Data.delete_patient patient_id w = (Err (HTTPException 404 "Patient not found"), w).
Proof.
  intros Hload Habsent.
  unfold Py.contains in Habsent.
  destruct (Py.get patient_id data) eqn:Hget; [discriminate|].
  unfold Data.view_patient, Data.update_patient, Data.delete_patient, bind.
  rewrite Hload, Hget. repeat split.
Qed.

Lemma not_found_leaves_store_sample :
  Data.delete_patient "P004" sample_world
  = (Err (HTTPException 404 "Patient not found"), sample_world).
Proof.
  apply (not_found_leaves_store sample_world three_patients "P004");
    reflexivity.
Defined.

(** ** Identifiers *)

Lemma length_append s t : String.length (s ++ t) = (String.length s + String.length t)%nat.
Proof. induction s; simpl; auto. Qed.

Lemma length_zeros n : String.length (Py.zeros n) = n.
Proof. induction n; simpl; auto. Qed.

Lemma length_zfill w s : String.length (Py.zfill w s) = Nat.max w (String.length s).
Proof. unfold Py.zfill. rewrite length_append, length_zeros. lia. Qed.

Lemma format_03d_small n :
  0 <= n < 1000 -> String.length (Py.format_03d n) = 3%nat.
Proof.
  intros Hn.
  assert (H : forallb (fun i => Nat.eqb (String.length (Py.format_03d (Z.of_nat i))) 3)
                (seq 0 1000) = true) by (vm_compute; reflexivity).
  rewrite forallb_forall in H.
  specialize (H (Z.to_nat n)). rewrite Z2Nat.id in H by lia.
  apply Nat.eqb_eq, H, in_seq. lia.
Qed.

Lemma three_digits_small s n :
  all_digits s = true -> String.length s = 3%nat -> Py.int s = Some n -> n < 1000.
Proof.
  destruct s as [|a [|b [|c [|d r]]]]; try discriminate.
  simpl. intros H _.
  apply andb_prop in H as [Ha H]. apply andb_prop in H as [Hb H].
  apply andb_prop in H as [Hc _].
  destruct (digit_cases a Ha) as [E|[E|[E|[E|[E|[E|[E|[E|[E|E]]]]]]]]]; subst a;
  destruct (digit_cases b Hb) as [E|[E|[E|[E|[E|[E|[E|[E|[E|E]]]]]]]]]; subst b;
  destruct (digit_cases c Hc) as [E|[E|[E|[E|[E|[E|[E|[E|[E|E]]]]]]]]]; subst c;
  intros E; vm_compute in E; injection E as <-; reflexivity.
Qed.

Lemma tail_new_id m : Py.tail (Data.new_id m) = Py.format_03d m.
Proof. reflexivity. Qed.

Lemma all_digits_format_03d m : 0 <= m -> all_digits (Py.format_03d m) = true.
Proof.
  intros Hm. unfold Py.format_03d. destruct (Z.ltb_spec m 0); [lia|].
  unfold Py.zfill. now rewrite all_digits_app, all_digits_zeros, all_digits_decimal.
Qed.

Lemma length_format_03d m : 0 <= m -> (3 <= String.length (Py.format_03d m))%nat.
Proof.
  intros Hm. unfold Py.format_03d. destruct (Z.ltb_spec m 0); [lia|].
  rewrite length_zfill. lia.
Qed.

Lemma suffix_new_id m : 0 <= m -> suffix (Data.new_id m) = m.
Proof.
  intros Hm. unfold suffix. now rewrite tail_new_id, int_format_03d.
Qed.

Lemma is_patient_id_new_id m : 0 <= m -> is_patient_id (Data.new_id m) = true.
Proof.
  intros Hm. pose proof (length_format_03d m Hm) as Hl.
  pose proof (all_digits_format_03d m Hm) as Hd.
  unfold Data.new_id. simpl.
  destruct (Py.format_03d m) as [|d r]; [simpl in Hl; lia|exact Hd].
Qed.

Lemma new_id_inj m n : 0 <= m -> 0 <= n -> Data.new_id m = Data.new_id n -> m = n.
Proof.
  intros Hm Hn E. rewrite <- (suffix_new_id m Hm), <- (suffix_new_id n Hn).
  now rewrite E.
Qed.

Lemma patient_id_suffix k :
  is_patient_id k = true -> Py.int (Py.tail k) = Some (suffix k) /\ 0 <= suffix k.
Proof.
  unfold is_patient_id, suffix.
  destruct k as [|c [|d r]]; try discriminate.
  intros H. apply andb_prop in H as [_ H]. simpl Py.tail.
  destruct (int_digits_some (String d r) H) as (n & -> & Hn); [discriminate|].
  now split.
Qed.

Lemma traverse_suffix (ks : list string) :
  Forall (fun k => is_patient_id k = true) ks ->
  Py.traverse (fun pid => Py.int (Py.tail pid)) ks = Some (map suffix ks).
Proof.
  induction 1 as [|k r Hk _ IH]; simpl; [reflexivity|].
  destruct (patient_id_suffix k Hk) as [-> _]. now rewrite IH.
Qed.

Lemma max_of_upper first rest x :
  In x (first :: rest) -> x <= Py.max_of first rest.
Proof.
  unfold Py.max_of. revert first x.
  induction rest as [|y r IH]; simpl; intros first x.
  - intros [<-|[]]. lia.
  - intros [E|[E|Hin]].
    + transitivity (Z.max first y); [lia|apply IH; left; reflexivity].
    + transitivity (Z.max first y); [lia|apply IH; left; reflexivity].
    + apply IH. now right.
Qed.

Lemma max_of_member first rest : In (Py.max_of first rest) (first :: rest).
Proof.
  unfold Py.max_of. revert first. induction rest as [|y r IH]; simpl; intros first.
  - now left.
  - destruct (IH (Z.max first y)) as [E|Hin]; [|now right; right].
    rewrite <- E. destruct (Z.max_spec first y) as [[_ ->]|[_ ->]]; auto.
Qed.

Lemma next_id_greatest (data : collection) :
  Forall (fun k => is_patient_id k = true) (Py.keys data) ->
  data <> [] ->
  exists m : Z,
    0 <= m
    /\ In m (map suffix (Py.keys data))
    /\ (forall k, In k (Py.keys data) -> suffix k <= m)
    /\ Data.get_next_patient_id data = Ok (Data.new_id (m + 1)).
Proof.
  intros Hwf Hne. unfold Data.get_next_patient_id.
  destruct data as [|[k0 v0] rest]; [now elim Hne|].
  rewrite (traverse_suffix _ Hwf).
  set (ks := Py.keys ((k0, v0) :: rest)) in *.
  change (map suffix ks) with (suffix k0 :: map suffix (Py.keys rest)).
  set (m := Py.max_of (suffix k0) (map suffix (Py.keys rest))).
  assert (Hmem : In m (map suffix ks)) by apply max_of_member.
  assert (Hup : forall k, In k ks -> suffix k <= m).
  { intros k Hk. apply max_of_upper. now apply (in_map suffix) in Hk. }
  assert (Hm : 0 <= m).
  { apply in_map_iff in Hmem as (k & <- & Hk).
    rewrite Forall_forall in Hwf. now apply patient_id_suffix, Hwf. }
  exists m. repeat split; auto.
Qed.

Lemma new_id_fresh (data : collection) m :
  0 <= m -> (forall k, In k (Py.keys data) -> suffix k <= m) ->
  ~ In (Data.new_id (m + 1)) (Py.keys data).
Proof.
  intros Hm Hup Hin. apply Hup in Hin. rewrite suffix_new_id in Hin; lia.
Qed.

(** C4.  On a collection whose keys are P followed by digits,
    [get_next_patient_id] returns P001 when the collection is empty, and
    otherwise P followed by [m + 1], [m] being the greatest numeric suffix in
    use: the suffix is written in decimal, padded with zeros to three
    characters and longer from 1000 on, it reads back as [m + 1], and the id
    is not one of the existing keys. *)
Theorem next_id_after_maximum (data : collection) :
  Forall (fun k => is_patient_id k = true) (Py.keys data) ->
  (data = [] -> Data.get_next_patient_id data = Ok "P001")
  /\ (data <> [] ->
      exists m : Z,
        In m (map suffix (Py.keys data))
        /\ (forall k, In k (Py.keys data) -> suffix k <= m)
        /\ Data.get_next_patient_id data = Ok ("P" ++ Py.format_03d (m + 1))
        /\ all_digits (Py.format_03d (m + 1)) = true
        /\ Py.int (Py.format_03d (m + 1)) = Some (m + 1)
        /\ (3 <= String.length (Py.format_03d (m + 1)))%nat
        /\ (String.length (Py.format_03d (m + 1)) = 3%nat <-> m + 1 < 1000)
        /\ ~ In ("P" ++ Py.format_03d (m + 1)) (Py.keys data)).
Proof.
  intros Hwf. split; [intros ->; reflexivity|].
  intros Hne. destruct (next_id_greatest data Hwf Hne) as (m & Hm & Hmem & Hup & Hres).
  exists m. repeat split; auto.
  - apply all_digits_format_03d. lia.
  - apply int_format_03d. lia.
  - apply length_format_03d. lia.
  - intros Hl. apply (three_digits_small (Py.format_03d (m + 1))); auto.
    + apply all_digits_format_03d. lia.
    + apply int_format_03d. lia.
  - intros Hlt. apply format_03d_small. lia.
  - now apply (new_id_fresh data m).
Qed.

Lemma next_id_after_maximum_gap :
  exists m : Z,
    (forall k, In k ["P001"; "P005"] -> suffix k <= m)
    /\ Data.get_next_patient_id
         [("P001", model_dump_exclude_id ann); ("P005", model_dump_exclude_id bob)]
       = Ok ("P" ++ Py.format_03d (m + 1)).
Proof.
  destruct (next_id_after_maximum
              [("P001", model_dump_exclude_id ann); ("P005", model_dump_exclude_id bob)])
    as [_ H]; [repeat constructor|].
  destruct H as (m & _ & Hup & Hres & _); [discriminate|].
  exists m. split; assumption.
Defined.

Example next_id_widens :
  Data.get_next_patient_id [("P999", model_dump_exclude_id ann)] = Ok "P1000".
Proof. reflexivity. Qed.

(** ** Renumbering *)

Lemma Zltb_asym a b : (a <? b) = true -> (b <? a) = false.
Proof. intros H. apply Z.ltb_lt in H. apply Z.ltb_ge. lia. Qed.

Lemma Zltb_negtrans a b c : (b <? a) = false -> (c <? b) = false -> (c <? a) = false.
Proof. rewrite !Z.ltb_ge. lia. Qed.

Lemma decorate_suffix (data : collection) :
  Forall (fun k => is_patient_id k = true) (Py.keys data) ->
  Data.decorate data = Some (map (fun x => (suffix (fst x), x)) data).
Proof.
  unfold Data.decorate.
  induction data as [|[k v] r IH]; simpl; intros H; [reflexivity|].
  inversion H as [|? ? Hk Hr]; subst.
  destruct (patient_id_suffix k Hk) as [-> _]. simpl. now rewrite (IH Hr).
Qed.

Lemma ids_upto_length n : List.length (ids_upto n) = n.
Proof. unfold ids_upto. now rewrite length_map, length_seq. Qed.

Lemma ids_upto_NoDup n : NoDup (ids_upto n).
Proof.
  unfold ids_upto. apply Finite.Injective_map_NoDup; [|apply seq_NoDup].
  intros i j E. apply new_id_inj in E; lia.
Qed.

Lemma ids_upto_patient_ids n : Forall (fun k => is_patient_id k = true) (ids_upto n).
Proof.
  unfold ids_upto. apply Forall_map, Forall_forall. intros i _.
  apply is_patient_id_new_id. lia.
Qed.

Lemma ids_upto_S n : ids_upto (S n) = (ids_upto n ++ [Data.new_id (Z.of_nat n + 1)])%list.
Proof.
  unfold ids_upto. rewrite seq_S, map_app. simpl. do 3 f_equal. lia.
Qed.

Lemma in_ids_upto n k :
  In k (ids_upto n) <-> exists i : nat, (1 <= i <= n)%nat /\ k = Data.new_id (Z.of_nat i).
Proof.
  unfold ids_upto. rewrite in_map_iff. split.
  - intros (i & <- & Hi). apply in_seq in Hi. exists i. split; [lia|reflexivity].
  - intros (i & Hi & ->). exists i. split; [reflexivity|]. apply in_seq. lia.
Qed.

Lemma suffix_ids_upto n : map suffix (ids_upto n) = map Z.of_nat (seq 1 n).
Proof.
  unfold ids_upto. rewrite map_map. apply map_ext. intros i.
  apply suffix_new_id. lia.
Qed.

Lemma enumerate_new_ids (l : collection) (start : nat) :
  map (fun ix => (Data.new_id (fst ix), snd (snd ix))) (Py.enumerate (Z.of_nat start) l)
  = combine (map (fun i => Data.new_id (Z.of_nat i)) (seq start (List.length l)))
            (Py.values l).
Proof.
  revert start. induction l as [|x r IH]; intros start; simpl; [reflexivity|].
  f_equal. replace (Z.of_nat start + 1) with (Z.of_nat (S start)) by lia.
  apply IH.
Qed.

Lemma fold_set_map {A : Type} (f : A -> string) (g : A -> patient_dict)
    (l : list A) (acc : collection) :
  fold_left (fun d x => Py.set (f x) (g x) d) l acc
  = fold_left (fun d kv => Py.set (fst kv) (snd kv) d) (map (fun x => (f x, g x)) l) acc.
Proof. revert acc. induction l as [|x r IH]; intros acc; simpl; auto. Qed.

Lemma keys_combine (ks : list string) (vs : list patient_dict) :
  List.length ks = List.length vs -> Py.keys (combine ks vs) = ks.
Proof.
  revert vs. induction ks as [|k r IH]; intros [|v vs]; simpl; try discriminate; auto.
  intros [= H]. now rewrite IH.
Qed.

Lemma values_combine (ks : list string) (vs : list patient_dict) :
  List.length ks = List.length vs -> Py.values (combine ks vs) = vs.
Proof.
  revert vs. induction ks as [|k r IH]; intros [|v vs]; simpl; try discriminate; auto.
  intros [= H]. now rewrite IH.
Qed.

(** The renumbered collection: the entries in ascending order of suffix, the
    stable sort keeping entries of equal suffix in their order, under the keys
    P001, P002, ... *)
Lemma renumber_patients_sorted (data : collection) :
  Forall (fun k => is_patient_id k = true) (Py.keys data) ->
  Data.renumber_patients data
  = Ok (combine (ids_upto (List.length data))
          (Py.values (Py.stable_sort Z.ltb (fun x => suffix (fst x)) data))).
Proof.
  intros Hwf. unfold Data.renumber_patients.
  destruct data as [|kv rest] eqn:Hdata; [reflexivity|]. rewrite <- Hdata in *.
  clear Hdata kv rest.
  rewrite (decorate_suffix data Hwf).
  rewrite (stable_sort_decorated Z.ltb (fun x => suffix (fst x)) data).
  set (l := Py.stable_sort Z.ltb (fun x => suffix (fst x)) data).
  assert (Hlen : List.length l = List.length data).
  { apply Permutation_length, stable_sort_perm. }
  f_equal.
  rewrite (fold_set_map (fun ix => Data.new_id (fst ix)) (fun ix => snd (snd ix))).
  change 1 with (Z.of_nat 1). rewrite enumerate_new_ids, Hlen.
  fold (ids_upto (List.length data)).
  rewrite fold_set_fresh; [reflexivity|].
  simpl. change (map fst ?l) with (Py.keys l).
  rewrite keys_combine; [apply ids_upto_NoDup|].
  unfold Py.values. now rewrite ids_upto_length, length_map.
Qed.

(** ** What a successful handler did *)

Lemma load_data_stored w data w' :
  load_data w = (Ok data, w') -> data = stored w /\ w' = w.
Proof.
  unfold load_data, stored. destruct (file w); intros [= <- <-]; auto.
Qed.

Lemma load_data_failed w e w' :
  load_data w = (Err e, w') -> file w = Unparsable /\ w' = w.
Proof.
  unfold load_data. destruct (file w); intros [= <- <-]; auto.
Qed.

Lemma save_data_ok data w w' :
  Data.save_data data w = (Ok tt, w') ->
  write_failure w = None /\ w' = {| file := Content data; write_failure := None |}.
Proof.
  unfold Data.save_data, write_file. destruct (write_failure w); intros [= <-]; auto.
Qed.

Lemma save_data_writable data w :
  write_failure w = None ->
  Data.save_data data w = (Ok tt, {| file := Content data; write_failure := None |}).
Proof. unfold Data.save_data, write_file. now intros ->. Qed.

Lemma create_patient_ok patient w r w' :
  Data.create_patient patient w = (Ok r, w') ->
  exists new_patient_id,
    Data.get_next_patient_id (stored w) = Ok new_patient_id
    /\ r = {| Data.created_message := "Patient created successfully";
              Data.created_patient_id := new_patient_id |}
    /\ w' = {| file := Content (Py.set new_patient_id (model_dump_exclude_id patient)
                                  (stored w));
               write_failure := None |}.
Proof.
  unfold Data.create_patient, bind, lift, ret.
  destruct (load_data w) as [[data|e] w1] eqn:Hload; [|discriminate].
  apply load_data_stored in Hload as [-> ->].
  destruct (Data.get_next_patient_id (stored w)) as [nid|e]; [|discriminate].
  destruct (Data.save_data _ w) as [[[]|e] w2] eqn:Hsave; [|discriminate].
  apply save_data_ok in Hsave as [_ ->].
  intros [= <- <-]. now exists nid.
Qed.

Lemma update_patient_ok patient_id patch w r w' :
  Data.update_patient patient_id patch w = (Ok r, w') ->
  exists existing p,
    Py.get patient_id (stored w) = Some existing
    /\ Data.Patient (with_id patient_id (apply_items existing patch)) = Ok p
    /\ r = {| Data.updated_message := "Patient updated successfully";
              Data.updated_patient_id := patient_id;
              Data.updated_patient := model_dump_exclude_id p |}
    /\ w' = {| file := Content (Py.set patient_id (model_dump_exclude_id p) (stored w));
               write_failure := None |}.
Proof.
  unfold Data.update_patient, bind, lift, ret, raise.
  destruct (load_data w) as [[data|e] w1] eqn:Hload; [|discriminate].
  apply load_data_stored in Hload as [-> ->].
  destruct (Py.get patient_id (stored w)) as [existing|]; [|discriminate].
  destruct (Data.Patient _) as [p|e] eqn:Hp; [|discriminate].
  destruct (Data.save_data _ w) as [[[]|e] w2] eqn:Hsave; [|discriminate].
  apply save_data_ok in Hsave as [_ ->].
  intros [= <- <-]. now exists existing, p.
Qed.

Lemma delete_patient_ok patient_id w r w' :
  Data.delete_patient patient_id w = (Ok r, w') ->
  exists deleted_patient renumbered_data,
    Py.get patient_id (stored w) = Some deleted_patient
    /\ Data.renumber_patients (Py.del patient_id (stored w)) = Ok renumbered_data
    /\ r = {| Data.deleted_message := "Patient deleted successfully and IDs renumbered";
              Data.deleted_patient := deleted_patient;
              Data.new_patient_count := Z.of_nat (List.length renumbered_data) |}
    /\ w' = {| file := Content renumbered_data; write_failure := None |}.
Proof.
  unfold Data.delete_patient, bind, lift, ret, raise.
  destruct (load_data w) as [[data|e] w1] eqn:Hload; [|discriminate].
  apply load_data_stored in Hload as [-> ->].
  destruct (Py.get patient_id (stored w)) as [existing|]; [|discriminate].
  destruct (Data.renumber_patients _) as [renumbered|e] eqn:Hp; [|discriminate].
  destruct (Data.save_data _ w) as [[[]|e] w2] eqn:Hsave; [|discriminate].
  apply save_data_ok in Hsave as [_ ->].
  intros [= <- <-]. now exists existing, renumbered.
Qed.

(** ** Dense identifiers *)

Lemma length_keys (data : collection) : List.length (Py.keys data) = List.length data.
Proof. apply length_map. Qed.

Lemma dense_ids_keys (data : collection) :
  Py.keys data = ids_upto (List.length data) ->
  NoDup (Py.keys data) /\ Forall (fun k => is_patient_id k = true) (Py.keys data).
Proof.
  intros ->. split; [apply ids_upto_NoDup|apply ids_upto_patient_ids].
Qed.

Lemma dense_ids_of_keys (data : collection) n :
  Py.keys data = ids_upto n -> dense_ids data.
Proof.
  intros H. unfold dense_ids. rewrite H. f_equal.
  now rewrite <- length_keys, H, ids_upto_length.
Qed.

Lemma dense_next_id (data : collection) :
  dense_ids data ->
  Data.get_next_patient_id data = Ok (Data.new_id (Z.of_nat (List.length data) + 1)).
Proof.
  intros Hd. destruct data as [|kv rest] eqn:E; [reflexivity|].
  rewrite <- E in *. assert (Hne : data <> []) by (rewrite E; discriminate).
  assert (Hpos : (1 <= List.length data)%nat) by (rewrite E; simpl; lia).
  clear E kv rest.
  destruct (dense_ids_keys data Hd) as [_ Hwf].
  destruct (next_id_greatest data Hwf Hne) as (m & _ & Hmem & Hup & ->).
  do 2 f_equal. f_equal. unfold dense_ids in Hd.
  rewrite Hd, suffix_ids_upto in Hmem.
  apply in_map_iff in Hmem as (i & <- & Hi). apply in_seq in Hi.
  assert (Hn : suffix (Data.new_id (Z.of_nat (List.length data))) <= Z.of_nat i).
  { apply Hup. rewrite Hd. apply in_ids_upto. exists (List.length data). split; [lia|reflexivity]. }
  rewrite suffix_new_id in Hn; lia.
Qed.

Lemma dense_after_create (data : collection) new_patient_id v :
  dense_ids data ->
  Data.get_next_patient_id data = Ok new_patient_id ->
  dense_ids (Py.set new_patient_id v data).
Proof.
  intros Hd Hnext. rewrite (dense_next_id data Hd) in Hnext. injection Hnext as <-.
  apply (dense_ids_of_keys _ (S (List.length data))).
  rewrite set_fresh.
  - unfold Py.keys. rewrite map_app. simpl. fold (Py.keys data).
    now rewrite Hd, ids_upto_S.
  - apply get_none_iff. rewrite Hd, in_ids_upto. intros (i & Hi & E).
    apply new_id_inj in E; lia.
Qed.

Lemma dense_after_update (data : collection) patient_id v :
  dense_ids data -> Py.get patient_id data <> None ->
  dense_ids (Py.set patient_id v data).
Proof.
  intros Hd Hget. apply (dense_ids_of_keys _ (List.length data)).
  now rewrite keys_set_present.
Qed.

Lemma patient_ids_del (data : collection) patient_id :
  Forall (fun k => is_patient_id k = true) (Py.keys data) ->
  Forall (fun k => is_patient_id k = true) (Py.keys (Py.del patient_id data)).
Proof.
  rewrite keys_del, !Forall_forall. intros H k Hk.
  apply filter_In in Hk as [Hk _]. now apply H.
Qed.

Lemma dense_after_renumber (data renumbered : collection) :
  Forall (fun k => is_patient_id k = true) (Py.keys data) ->
  Data.renumber_patients data = Ok renumbered ->
  dense_ids renumbered /\ List.length renumbered = List.length data.
Proof.
  intros Hwf. rewrite (renumber_patients_sorted data Hwf). intros [= <-].
  assert (Hlen : List.length (ids_upto (List.length data))
                 = List.length (Py.values (Py.stable_sort Z.ltb
                                             (fun x => suffix (fst x)) data))).
  { unfold Py.values. rewrite ids_upto_length, length_map.
    symmetry. apply Permutation_length, stable_sort_perm. }
  split.
  - apply (dense_ids_of_keys _ (List.length data)). now apply keys_combine.
  - rewrite length_combine, <- Hlen, ids_upto_length. lia.
Qed.

Lemma step_preserves_dense (w w' : world) :
  dense_ids (stored w) -> step w w' -> dense_ids (stored w').
Proof.
  intros Hd [p r H|pid patch r H|pid r H].
  - apply create_patient_ok in H as (nid & Hnext & _ & ->). simpl.
    now apply dense_after_create.
  - apply update_patient_ok in H as (existing & p & Hget & _ & _ & ->). simpl.
    apply dense_after_update; [exact Hd|congruence].
  - apply delete_patient_ok in H as (existing & renumbered & _ & Hren & _ & ->). simpl.
    apply dense_after_renumber in Hren as [H _]; [exact H|].
    apply patient_ids_del. now apply dense_ids_keys.
Qed.

Lemma step_readable (w w' : world) : step w w' -> file w' <> Unparsable.
Proof.
  intros [p r H|pid patch r H|pid r H].
  - apply create_patient_ok in H as (? & _ & _ & ->). discriminate.
  - apply update_patient_ok in H as (? & ? & _ & _ & _ & ->). discriminate.
  - apply delete_patient_ok in H as (? & ? & _ & _ & _ & ->). discriminate.
Qed.

Lemma run_create patient w :
  succeeded (Data.create_patient patient w) ->
  step w (snd (Data.create_patient patient w)).
Proof.
  unfold succeeded. destruct (Data.create_patient patient w) as [[r|e] w'] eqn:E;
    [intros _|intros []]. now apply (step_create w w' patient r).
Qed.

Lemma run_update patient_id patch w :
  succeeded (Data.update_patient patient_id patch w) ->
  step w (snd (Data.update_patient patient_id patch w)).
Proof.
  unfold succeeded.
  destruct (Data.update_patient patient_id patch w) as [[r|e] w'] eqn:E;
    [intros _|intros []]. now apply (step_update w w' patient_id patch r).
Qed.

Lemma run_delete patient_id w :
  succeeded (Data.delete_patient patient_id w) ->
  step w (snd (Data.delete_patient patient_id w)).
Proof.
  unfold succeeded. destruct (Data.delete_patient patient_id w) as [[r|e] w'] eqn:E;
    [intros _|intros []]. now apply (step_delete w w' patient_id r).
Qed.

(** C2.  In every state reached from an empty collection by successful
    [create_patient], [update_patient] and [delete_patient] calls, the keys are
    exactly P001 .. P{n}, each once, [n] being the number of entries; and each
    of the three operations keeps the keys dense. *)
Theorem reachable_ids_dense :
  (forall w, reachable w ->
     load_data w = (Ok (stored w), w)
     /\ Py.keys (stored w) = ids_upto (List.length (stored w))
     /\ NoDup (Py.keys (stored w))
     /\ (forall k, In k (Py.keys (stored w)) <->
           exists i : nat, (1 <= i <= List.length (stored w))%nat
                           /\ k = "P" ++ Py.format_03d (Z.of_nat i)))
  /\ (forall w w', dense_ids (stored w) -> step w w' -> dense_ids (stored w')).
Proof.
  split; [|exact step_preserves_dense].
  intros w Hr.
  assert (H : file w <> Unparsable /\ dense_ids (stored w)).
  { induction Hr as [w [E|E]|w w' _ [_ IH] Hs].
    - unfold stored, dense_ids. rewrite E. split; [discriminate|reflexivity].
    - unfold stored, dense_ids. rewrite E. split; [discriminate|reflexivity].
    - split; [now apply (step_readable w)|now apply (step_preserves_dense w)]. }
  destruct H as [Hfile Hd]. split.
  - unfold load_data, stored. destruct (file w); [reflexivity|now elim Hfile|reflexivity].
  - split; [exact Hd|]. split; [now apply dense_ids_keys|].
    intros k. unfold dense_ids in Hd. rewrite Hd. apply in_ids_upto.
Qed.

Lemma reachable_ids_dense_sample :
  let w1 := snd (Data.create_patient ann empty_world) in
  let w2 := snd (Data.create_patient bob w1) in
  let w3 := snd (Data.create_patient cyd w2) in
  let w4 := snd (Data.update_patient "P003" (weight_only 80) w3) in
  let w5 := snd (Data.delete_patient "P002" w4) in
  Py.keys (stored w5) = ["P001"; "P002"].
Proof.
  intros w1 w2 w3 w4 w5.
  destruct reachable_ids_dense as [H _].
  apply (H w5).
  apply (reachable_step w4); [|apply run_delete; exact I].
  apply (reachable_step w3); [|apply run_update; exact I].
  apply (reachable_step w2); [|apply run_create; exact I].
  apply (reachable_step w1); [|apply run_create; exact I].
  apply (reachable_step empty_world); [|apply run_create; exact I].
  apply reachable_empty. left. reflexivity.
Defined.

(** ** Delete *)

Lemma strongly_sorted_impl {A : Type} (R S : A -> A -> Prop) (l : list A) :
  (forall x y, R x y -> S x y) -> StronglySorted R l -> StronglySorted S l.
Proof.
  intros HRS. induction 1 as [|x r _ IH Hx]; constructor; [exact IH|].
  eapply Forall_impl; [|exact Hx]. intros y. apply HRS.
Qed.

Lemma sorted_by_suffix (l : collection) :
  StronglySorted (fun x y => suffix (fst x) <= suffix (fst y))
    (Py.stable_sort Z.ltb (fun x => suffix (fst x)) l).
Proof.
  apply strongly_sorted_impl with (R := before Z.ltb (fun x => suffix (fst x))).
  - unfold before. intros x y H. now apply Z.ltb_ge in H.
  - apply stable_sort_sorted; [apply Zltb_asym|apply Zltb_negtrans].
Qed.

Lemma with_suffix_stable (n : Z) (l : collection) :
  with_suffix n (Py.stable_sort Z.ltb (fun x => suffix (fst x)) l) = with_suffix n l.
Proof.
  unfold with_suffix. apply filter_stable_sort.
  intros x y Hx Hy. apply Z.eqb_eq in Hx, Hy. rewrite Hx, Hy. apply Z.ltb_irrefl.
Qed.

(** C3.  On a well-formed collection that holds [patient_id], with a writable
    file, [delete_patient] removes that entry, orders the remaining entries by
    ascending numeric suffix of their old id (entries of equal suffix keep
    their order), gives them the ids P001, P002, ... in that order with their
    values untouched, writes the result, and returns the value the deleted id
    had together with the new number of entries. *)
Theorem delete_patient_renumbers (w : world) (data : collection)
    (patient_id : string) (deleted_patient : patient_dict) :
  file w = Content data ->
  write_failure w = None ->
  well_formed data ->
  Py.get patient_id data = Some deleted_patient ->
  exists remaining : collection,
    Permutation remaining (Py.del patient_id data)
    /\ (forall kv, In kv (Py.del patient_id data) <-> In kv data /\ fst kv <> patient_id)
    /\ StronglySorted (fun x y => suffix (fst x) <= suffix (fst y)) remaining
    /\ (forall n, with_suffix n remaining = with_suffix n (Py.del patient_id data))
    /\ S (List.length remaining) = List.length data
    /\ Data.delete_patient patient_id w
       = (Ok {| Data.deleted_message := "Patient deleted successfully and IDs renumbered";
                Data.deleted_patient := deleted_patient;
                Data.new_patient_count := Z.of_nat (List.length data) - 1 |},
          {| file := Content (combine (ids_upto (List.length remaining))
                                      (Py.values remaining));
             write_failure := None |}).
Proof.
  intros Hfile Hwrite [Hnd Hids] Hget.
  set (rest := Py.del patient_id data).
  set (remaining := Py.stable_sort Z.ltb (fun x => suffix (fst x)) rest).
  assert (Hperm : Permutation remaining rest) by apply stable_sort_perm.
  assert (Hlen : S (List.length remaining) = List.length data).
  { rewrite (Permutation_length Hperm). now apply (length_del patient_id deleted_patient). }
  exists remaining. split; [exact Hperm|]. split; [intros kv; apply in_del|].
  split; [apply sorted_by_suffix|]. split; [intros n; apply with_suffix_stable|].
  split; [exact Hlen|].
  unfold Data.delete_patient, bind, lift, ret, load_data.
  rewrite Hfile, Hget. fold rest.
  rewrite (renumber_patients_sorted rest) by now apply patient_ids_del.
  fold remaining. rewrite <- (Permutation_length Hperm).
  rewrite save_data_writable by exact Hwrite.
  do 3 f_equal. rewrite length_combine, ids_upto_length.
  unfold Py.values. rewrite length_map. lia.
Qed.

Lemma delete_patient_renumbers_sample :
  exists remaining : collection,
    Permutation remaining (Py.del "P002" three_patients)
    /\ fst (Data.delete_patient "P002" sample_world)
       = Ok {| Data.deleted_message := "Patient deleted successfully and IDs renumbered";
               Data.deleted_patient := model_dump_exclude_id bob;
               Data.new_patient_count := 2 |}.
Proof.
  destruct (delete_patient_renumbers sample_world three_patients "P002"
              (model_dump_exclude_id bob)) as (remaining & Hperm & _ & _ & _ & _ & Hrun).
  - reflexivity.
  - reflexivity.
  - split; [|repeat constructor].
    repeat constructor; simpl; intuition discriminate.
  - reflexivity.
  - exists remaining. split; [exact Hperm|]. now rewrite Hrun.
Defined.

Example delete_middle_entry :
  stored (snd (Data.delete_patient "P002" sample_world))
  = [("P001", model_dump_exclude_id ann); ("P002", model_dump_exclude_id cyd)].
Proof. reflexivity. Qed.

Example renumber_orders_by_number :
  Data.renumber_patients
    [("P010", model_dump_exclude_id ann); ("P2", model_dump_exclude_id bob);
     ("P002", model_dump_exclude_id cyd)]
  = Ok [("P001", model_dump_exclude_id bob); ("P002", model_dump_exclude_id cyd);
        ("P003", model_dump_exclude_id ann)].
Proof. reflexivity. Qed.

Example renumber_malformed_key :
  Data.renumber_patients [("abc", model_dump_exclude_id ann)] = Err ValueError.
Proof. reflexivity. Qed.

(** ** Sort *)

Lemma Qltb_asym a b : Py.Qltb a b = true -> Py.Qltb b a = false.
Proof. rewrite Qltb_lt, Qltb_ge. apply Qlt_le_weak. Qed.

Lemma Qltb_negtrans a b c :
  Py.Qltb b a = false -> Py.Qltb c b = false -> Py.Qltb c a = false.
Proof. rewrite !Qltb_ge. intros H1 H2. now apply (Qle_trans _ b). Qed.

Lemma with_key_sorted (key : patient_dict -> Q) (v : Q) reverse (l : list patient_dict) :
  with_key key v (Py.sorted Py.Qltb key reverse l) = with_key key v l.
Proof.
  unfold with_key. apply filter_sorted.
  intros x y Hx Hy. apply Qeq_bool_iff in Hx, Hy. apply Qltb_ge.
  rewrite Hx, Hy. apply Qle_refl.
Qed.

Lemma sorted_ascending_Q (key : patient_dict -> Q) (l : list patient_dict) :
  StronglySorted (fun x y => (key x <= key y)%Q) (Py.sorted Py.Qltb key false l).
Proof.
  apply strongly_sorted_impl with (R := before Py.Qltb key).
  - unfold before. intros x y. apply Qltb_ge.
  - apply stable_sort_sorted; [apply Qltb_asym|apply Qltb_negtrans].
Qed.

Lemma sorted_descending_Q (key : patient_dict -> Q) (l : list patient_dict) :
  StronglySorted (fun x y => (key y <= key x)%Q) (Py.sorted Py.Qltb key true l).
Proof.
  apply strongly_sorted_impl with (R := fun x y => before Py.Qltb key y x).
  - unfold before. intros x y. apply Qltb_ge.
  - apply sorted_descending; [apply Qltb_asym|apply Qltb_negtrans].
Qed.

Section SortUnique.
Context {A K : Type} (ltb : K -> K -> bool) (key : A -> K).

(** Two ascending arrangements of the same elements coincide when equal keys
    occur only on equal elements. *)
Lemma ascending_unique (l1 l2 : list A) :
  (forall x y, In x l1 -> In y l1 ->
     x = y \/ ltb (key x) (key y) = true \/ ltb (key y) (key x) = true) ->
  StronglySorted (before ltb key) l1 -> StronglySorted (before ltb key) l2 ->
  Permutation l1 l2 -> l1 = l2.
Proof.
  revert l2. induction l1 as [|x r1 IH]; intros l2 Hd H1 H2 Hp.
  - apply Permutation_nil in Hp. now subst.
  - destruct l2 as [|y r2]; [apply Permutation_sym, Permutation_nil in Hp; discriminate|].
    inversion H1 as [|? ? Hs1 Hx]; subst. inversion H2 as [|? ? Hs2 Hy]; subst.
    assert (E : x = y).
    { assert (Hin : In x (y :: r2)) by (apply (Permutation_in _ Hp); now left).
      assert (Hin' : In y (x :: r1))
        by (apply (Permutation_in _ (Permutation_sym Hp)); now left).
      destruct Hin as [E|Hin]; [now symmetry|].
      destruct Hin' as [E|Hin']; [exact E|].
      rewrite Forall_forall in Hx, Hy.
      specialize (Hx y Hin'). specialize (Hy x Hin). unfold before in Hx, Hy.
      destruct (Hd x y) as [E|[E|E]]; [now left|now right|exact E|congruence|congruence]. }
    subst y. f_equal. apply IH; auto.
    + intros a b Ha Hb. apply Hd; now right.
    + now apply Permutation_cons_inv in Hp.
Qed.

Hypothesis ltb_asym : forall a b, ltb a b = true -> ltb b a = false.
Hypothesis ltb_negtrans :
  forall a b c, ltb b a = false -> ltb c b = false -> ltb c a = false.

Lemma sorted_reverse_without_ties (l : list A) :
  (forall x y, In x l -> In y l ->
     x = y \/ ltb (key x) (key y) = true \/ ltb (key y) (key x) = true) ->
  Py.sorted ltb key true l = List.rev (Py.sorted ltb key false l).
Proof.
  intros Hd. unfold Py.sorted. f_equal.
  apply ascending_unique.
  - intros x y Hx Hy. apply Hd.
    + apply in_rev. now apply (Permutation_in _ (stable_sort_perm ltb key (List.rev l))).
    + apply in_rev. now apply (Permutation_in _ (stable_sort_perm ltb key (List.rev l))).
  - now apply stable_sort_sorted.
  - now apply stable_sort_sorted.
  - rewrite !stable_sort_perm. symmetry. apply Permutation_rev.
Qed.
End SortUnique.

Lemma sorted_reverse_without_ties_Q (key : patient_dict -> Q) (l : list patient_dict) :
  (forall x y, In x l -> In y l -> x = y \/ ~ (key x == key y)%Q) ->
  Py.sorted Py.Qltb key true l = List.rev (Py.sorted Py.Qltb key false l).
Proof.
  intros Hd. apply sorted_reverse_without_ties; [apply Qltb_asym|apply Qltb_negtrans|].
  intros x y Hx Hy. destruct (Hd x y Hx Hy) as [E|Hne]; [now left|right].
  rewrite !Qltb_lt. destruct (Q_dec (key x) (key y)) as [[H|H]|H]; auto. contradiction.
Qed.

Lemma valid_field_dec (sort_by : string) :
  existsb (String.eqb sort_by) Data.valid_fields = true <-> In sort_by Data.valid_fields.
Proof.
  rewrite existsb_exists. split.
  - intros (x & Hx & E). apply String.eqb_eq in E. now subst.
  - intros H. exists sort_by. split; [exact H|apply String.eqb_refl].
Qed.

Lemma order_dec (o : string) :
  existsb (String.eqb o) ["asc"; "desc"] = true <-> In o ["asc"; "desc"].
Proof.
  rewrite existsb_exists. split.
  - intros (x & Hx & E). apply String.eqb_eq in E. now subst.
  - intros H. exists o. split; [exact H|apply String.eqb_refl].
Qed.

(** C5, as the code has it.  [sort_patients] rejects a [sort_by] outside
    height, weight, bmi and an [order] outside asc, desc with status 400
    without reading the file; [order] defaults to asc.  Otherwise it returns
    the stored values ordered by the chosen field, ascending for asc and
    descending for desc, a record without the field counting as 0; in both
    directions records with equal values keep their original order, so that
    the descending result is the ascending one reversed when no two distinct
    records share the value. *)
Theorem sort_patients_ordered (w : world) (sort_by : string) (order : option string) :
  let o := match order with Some o => o | None => "asc" end in
  let key := get_number sort_by in
  (~ In sort_by ["height"; "weight"; "bmi"] ->
   exists detail, Data.sort_patients sort_by order w = (Err (HTTPException 400 detail), w))
  /\ (In sort_by ["height"; "weight"; "bmi"] -> ~ In o ["asc"; "desc"] ->
      exists detail, Data.sort_patients sort_by order w = (Err (HTTPException 400 detail), w))
  /\ (In sort_by ["height"; "weight"; "bmi"] -> In o ["asc"; "desc"] ->
      file w <> Unparsable ->
      exists l : list patient_dict,
        Data.sort_patients sort_by order w = (Ok l, w)
        /\ Permutation l (Py.values (stored w))
        /\ (forall v, with_key key v l = with_key key v (Py.values (stored w)))
        /\ (o = "asc" -> StronglySorted (fun x y => (key x <= key y)%Q) l)
        /\ (o = "desc" -> StronglySorted (fun x y => (key y <= key x)%Q) l)
        /\ (o = "desc" ->
            (forall x y, In x (Py.values (stored w)) -> In y (Py.values (stored w)) ->
               x = y \/ ~ (key x == key y)%Q) ->
            Data.sort_patients sort_by (Some "asc") w = (Ok (List.rev l), w)))
  /\ (forall x, d_height x = None -> get_number "height" x = 0%Q)
  /\ (forall x, d_weight x = None -> get_number "weight" x = 0%Q)
  /\ (forall x, d_bmi x = None -> get_number "bmi" x = 0%Q).
Proof.
  cbv zeta. unfold Data.sort_patients.
  set (o := match order with Some o => o | None => "asc" end).
  change ["height"; "weight"; "bmi"] with Data.valid_fields.
  split; [|split; [|split]].
  - intros Hin. rewrite <- valid_field_dec in Hin.
    destruct (existsb (String.eqb sort_by) Data.valid_fields); [now elim Hin|].
    simpl. eexists. reflexivity.
  - intros Hin Ho. rewrite <- valid_field_dec in Hin. rewrite <- order_dec in Ho.
    destruct (existsb (String.eqb o) ["asc"; "desc"]); [now elim Ho|].
    rewrite Hin. simpl. eexists. reflexivity.
  - intros Hin Ho Hfile.
    pose proof Ho as Ho'. rewrite <- valid_field_dec in Hin. rewrite <- order_dec in Ho'.
    rewrite Hin, Ho'. cbn [negb]. unfold bind, ret.
    assert (Hload : load_data w = (Ok (stored w), w)).
    { unfold load_data, stored. destruct (file w); [reflexivity|now elim Hfile|reflexivity]. }
    rewrite Hload. eexists. split; [reflexivity|].
    split; [apply sorted_perm|]. split; [intros v; apply with_key_sorted|].
    split; [intros ->; apply sorted_ascending_Q|].
    split; [intros ->; apply sorted_descending_Q|].
    intros -> Hties. simpl. unfold bind, ret. rewrite Hload.
    do 2 f_equal.
    pose proof (sorted_reverse_without_ties_Q _ _ Hties) as E.
    unfold Py.sorted in E. rewrite E. now rewrite rev_involutive.
  - repeat split; intros x Hx; unfold get_number; simpl; now rewrite Hx.
Qed.

Lemma sort_patients_ordered_sample :
  exists l : list patient_dict,
    Data.sort_patients "bmi" (Some "desc") sample_world = (Ok l, sample_world)
    /\ StronglySorted (fun x y => (get_number "bmi" y <= get_number "bmi" x)%Q) l.
Proof.
  destruct (sort_patients_ordered sample_world "bmi" (Some "desc"))
    as (_ & _ & H & _).
  destruct H as (l & Hrun & _ & _ & _ & Hdesc & _).
  - simpl. tauto.
  - simpl. tauto.
  - discriminate.
  - exists l. split; [exact Hrun|]. now apply Hdesc.
Defined.

(** C5, as stated, fails where two records share the value: the descending
    result is not the ascending result reversed.  The three sample patients
    have the same height, and both directions return them in stored order. *)
Lemma sort_desc_is_not_asc_reversed :
  Data.sort_patients "height" (Some "asc") sample_world
  = (Ok (Py.values three_patients), sample_world)
  /\ Data.sort_patients "height" (Some "desc") sample_world
     = (Ok (Py.values three_patients), sample_world)
  /\ Py.values three_patients <> List.rev (Py.values three_patients).
Proof.
  split; [reflexivity|]. split; [reflexivity|]. discriminate.
Qed.

Example sort_by_bmi :
  map d_name (match fst (Data.sort_patients "bmi" None sample_world) with
              | Ok l => l
              | Err _ => []
              end)
  = [Some "Ann"; Some "Cyd"; Some "Bob"].
Proof. reflexivity. Qed.

(** ** Update *)

Lemma Patient_fields (kw : patient_dict) (p : patient) :
  Data.Patient kw = Ok p ->
  d_id kw = Some (id p) /\ d_name kw = Some (name p) /\ d_city kw = Some (city p)
  /\ d_age kw = Some (age p) /\ d_gender kw = Some (gender p)
  /\ d_height kw = Some (height p) /\ d_weight kw = Some (weight p)
  /\ 0 < age p /\ is_gender (gender p) = true
  /\ (0 < height p)%Q /\ (0 < weight p)%Q.
Proof.
  unfold Data.Patient.
  destruct (d_id kw), (d_name kw), (d_city kw), (d_age kw), (d_gender kw),
    (d_height kw), (d_weight kw); try discriminate.
  destruct (_ && _)%bool eqn:E; [|discriminate]. intros [= <-]. simpl.
  apply andb_prop in E as [E Hw]. apply andb_prop in E as [E Hh].
  apply andb_prop in E as [Ha Hg].
  apply Z.ltb_lt in Ha. apply Qltb_lt in Hh, Hw. repeat split; auto.
Qed.

Lemma Patient_valid i n c a g h wt :
  0 < a -> is_gender g = true -> (0 < h)%Q -> (0 < wt)%Q ->
  Data.Patient {| d_id := Some i; d_name := Some n; d_city := Some c; d_age := Some a;
                  d_gender := Some g; d_height := Some h; d_weight := Some wt;
                  d_bmi := None; d_verdict := None |}
  = Ok {| id := i; name := n; city := c; age := a; gender := g;
          height := h; weight := wt |}.
Proof.
  intros Ha Hg Hh Hw. unfold Data.Patient. simpl.
  apply Z.ltb_lt in Ha. apply Qltb_lt in Hh, Hw. now rewrite Ha, Hg, Hh, Hw.
Qed.

Lemma Patient_ignores_computed (kw : patient_dict) b v :
  Data.Patient kw
  = Data.Patient {| d_id := d_id kw; d_name := d_name kw; d_city := d_city kw;
                    d_age := d_age kw; d_gender := d_gender kw;
                    d_height := d_height kw; d_weight := d_weight kw;
                    d_bmi := b; d_verdict := v |}.
Proof. reflexivity. Qed.

(** C7.  Updating only the weight of a stored valid patient, with a positive
    weight, succeeds and stores a record whose name, city, age, gender and
    height are those of the existing record, whose weight is the new one, and
    whose bmi and verdict are computed from the existing height and the new
    weight; the other entries are untouched.  For any patch, a successful
    update stores, for each of the six fields, the patch value when set and
    the existing value otherwise, with bmi computed from the stored height
    and weight. *)
Theorem update_keeps_unset_fields (w : world) (data : collection) (patient_id : string)
    (existing : patient_dict) (n c : string) (a : Z) (g : string) (h new_weight : Q) :
  file w = Content data ->
  write_failure w = None ->
  Py.get patient_id data = Some existing ->
  d_name existing = Some n -> d_city existing = Some c -> d_age existing = Some a ->
  d_gender existing = Some g -> d_height existing = Some h ->
  0 < a -> is_gender g = true -> (0 < h)%Q -> (0 < new_weight)%Q ->
  let p := {| id := patient_id; name := n; city := c; age := a; gender := g;
              height := h; weight := new_weight |} in
  let record := {| d_id := None; d_name := Some n; d_city := Some c; d_age := Some a;
                   d_gender := Some g; d_height := Some h;
                   d_weight := Some new_weight;
                   d_bmi := Some (Py.round2 (new_weight / h ^ 2));
                   d_verdict := Some (verdict p) |} in
  Data.update_patient patient_id (weight_only new_weight) w
  = (Ok {| Data.updated_message := "Patient updated successfully";
           Data.updated_patient_id := patient_id;
           Data.updated_patient := record |},
     {| file := Content (Py.set patient_id record data); write_failure := None |})
  /\ Py.get patient_id (Py.set patient_id record data) = Some record
  /\ (forall k, k <> patient_id -> Py.get k (Py.set patient_id record data) = Py.get k data)
  /\ (forall patch r w',
        Data.update_patient patient_id patch w = (Ok r, w') ->
        let u := Data.updated_patient r in
        Py.get patient_id (stored w') = Some u
        /\ d_name u = overwrite (d_name existing) (u_name patch)
        /\ d_city u = overwrite (d_city existing) (u_city patch)
        /\ d_age u = overwrite (d_age existing) (u_age patch)
        /\ d_gender u = overwrite (d_gender existing) (u_gender patch)
        /\ d_height u = overwrite (d_height existing) (u_height patch)
        /\ d_weight u = overwrite (d_weight existing) (u_weight patch)
        /\ exists h' w'', d_height u = Some h' /\ d_weight u = Some w''
                          /\ d_bmi u = Some (Py.round2 (w'' / h' ^ 2))).
Proof.
  intros Hfile Hwrite Hget Hn Hc Ha Hg Hh Hpa Hpg Hph Hpw p record.
  split; [|split; [apply get_set_same|split; [intros k Hk; now apply get_set_other|]]].
  - unfold Data.update_patient, bind, lift, ret, load_data.
    rewrite Hfile, Hget.
    rewrite (Patient_ignores_computed _ None None). simpl.
    rewrite Hn, Hc, Ha, Hg, Hh. simpl.
    rewrite (Patient_valid patient_id n c a g h new_weight) by assumption.
    rewrite save_data_writable by exact Hwrite. reflexivity.
  - intros patch r w' Hrun.
    apply update_patient_ok in Hrun as (existing' & q & Hget' & Hq & -> & ->).
    unfold stored in Hget'. rewrite Hfile in Hget'.
    rewrite Hget in Hget'. injection Hget' as <-.
    apply Patient_fields in Hq
      as (_ & Hqn & Hqc & Hqa & Hqg & Hqh & Hqw & _).
    unfold stored. simpl in *. rewrite get_set_same.
    repeat split; try congruence.
    exists (height q), (weight q). repeat split.
Qed.

Lemma update_keeps_unset_fields_sample :
  Data.update_patient "P001" (weight_only 80) sample_world
  = (Ok {| Data.updated_message := "Patient updated successfully";
           Data.updated_patient_id := "P001";
           Data.updated_patient := model_dump_exclude_id
                                     (mk_patient "Ann" "Oslo" 30 "female" (17 # 10) 80) |},
     {| file := Content
                  (Py.set "P001"
                     (model_dump_exclude_id
                        (mk_patient "Ann" "Oslo" 30 "female" (17 # 10) 80))
                     three_patients);
        write_failure := None |}).
Proof.
  apply (update_keeps_unset_fields sample_world three_patients "P001"
           (model_dump_exclude_id ann) "Ann" "Oslo" 30 "female" (17 # 10) 80);
    reflexivity.
Defined.

(** ** Create *)

Lemma model_dump_ignores_id (p q : patient) :
  name p = name q -> city p = city q -> age p = age q -> gender p = gender q ->
  height p = height q -> weight p = weight q ->
  model_dump_exclude_id p = model_dump_exclude_id q.
Proof.
  destruct p, q. simpl. intros -> -> -> -> -> ->. reflexivity.
Qed.

Lemma create_patient_ignores_id (p q : patient) (w : world) :
  model_dump_exclude_id p = model_dump_exclude_id q ->
  Data.create_patient p w = Data.create_patient q w.
Proof. intros E. unfold Data.create_patient. now rewrite E. Qed.

Lemma Patient_with_id (body : patient_dict) (id1 id2 : string) :
  match Data.Patient (with_id id1 body), Data.Patient (with_id id2 body) with
  | Ok p, Ok q =>
      id p = id1 /\ id q = id2
      /\ model_dump_exclude_id p = model_dump_exclude_id q
      /\ d_name body = Some (name p) /\ d_city body = Some (city p)
      /\ d_age body = Some (age p) /\ d_gender body = Some (gender p)
      /\ d_height body = Some (height p) /\ d_weight body = Some (weight p)
  | Err e, Err e' => e = e'
  | _, _ => False
  end.
Proof.
  unfold Data.Patient, with_id. simpl.
  destruct (d_name body), (d_city body), (d_age body), (d_gender body),
    (d_height body), (d_weight body); try reflexivity.
  destruct (_ && _)%bool; [|reflexivity]. repeat split.
Qed.

(** C10.  The body of a create request must carry an id for the model to
    validate, yet the id plays no part: two bodies that differ only in their
    id give the same response and the same world, and the id returned by a
    successful request is the one [get_next_patient_id] computes from the
    stored collection, under which the entry, built from the other fields of
    the body, is stored. *)
Theorem create_ignores_supplied_id (w : world) (body : patient_dict) (id1 id2 : string) :
  Data.post_create (with_id id1 body) w = Data.post_create (with_id id2 body) w
  /\ (forall r w',
        Data.post_create (with_id id1 body) w = (Ok r, w') ->
        Data.get_next_patient_id (stored w) = Ok (Data.created_patient_id r)
        /\ exists entry,
             stored w' = Py.set (Data.created_patient_id r) entry (stored w)
             /\ d_id entry = None
             /\ d_name entry = d_name body /\ d_city entry = d_city body
             /\ d_age entry = d_age body /\ d_gender entry = d_gender body
             /\ d_height entry = d_height body /\ d_weight entry = d_weight body)
  /\ (d_id body = None -> Data.post_create body w = (Err RequestValidationError, w)).
Proof.
  pose proof (Patient_with_id body id1 id2) as H.
  unfold Data.post_create, Data.request_body, bind, ret, raise.
  split; [|split].
  - destruct (Data.Patient (with_id id1 body)) as [p|e],
      (Data.Patient (with_id id2 body)) as [q|e']; try contradiction.
    + destruct H as (_ & _ & E & _). now apply create_patient_ignores_id.
    + reflexivity.
  - intros r w'.
    destruct (Data.Patient (with_id id1 body)) as [p|e]; [|discriminate].
    destruct (Data.Patient (with_id id2 body)) as [q|e']; [|contradiction].
    destruct H as (_ & _ & _ & Hn & Hc & Ha & Hg & Hh & Hw).
    intros Hrun. apply create_patient_ok in Hrun as (nid & Hnext & -> & ->).
    split; [exact Hnext|]. exists (model_dump_exclude_id p). simpl.
    repeat split; congruence.
  - intros Hid. unfold Data.Patient. now rewrite Hid.
Qed.

Lemma create_ignores_supplied_id_sample :
  Data.get_next_patient_id (stored sample_world) = Ok "P004"
  /\ Data.post_create (with_id "P001" (model_dump_exclude_id ann)) sample_world
     = Data.post_create (with_id "P777" (model_dump_exclude_id ann)) sample_world.
Proof.
  destruct (create_ignores_supplied_id sample_world (model_dump_exclude_id ann)
              "P001" "P777") as (Hsame & Hnext & _).
  split; [|exact Hsame].
  apply (Hnext {| Data.created_message := "Patient created successfully";
                  Data.created_patient_id := "P004" |}
           (snd (Data.post_create (with_id "P001" (model_dump_exclude_id ann))
                   sample_world))).
  reflexivity.
Defined.

Example create_accepts_empty_id :
  fst (Data.post_create (with_id "" (model_dump_exclude_id ann)) empty_world)
  = Ok {| Data.created_message := "Patient created successfully";
          Data.created_patient_id := "P001" |}.
Proof. reflexivity. Qed.

(** ** The weight bound in the two files *)

Lemma data_rejects_nonpositive_weight (x : Q) :
  (x <= 0)%Q ->
  (forall body w, d_weight body = Some x ->
     Data.post_create body w = (Err RequestValidationError, w))
  /\ (forall patient_id body w, u_weight body = Some x ->
        Data.put_edit patient_id body w = (Err RequestValidationError, w)).
Proof.
  intros Hx. apply Qltb_ge in Hx. split.
  - intros body w Hw. unfold Data.post_create, Data.request_body, bind, raise, Data.Patient.
    rewrite Hw.
    destruct (d_id body), (d_name body), (d_city body), (d_age body), (d_gender body),
      (d_height body); try reflexivity.
    rewrite Hx, andb_false_r. reflexivity.
  - intros pid body w Hw.
    unfold Data.put_edit, Data.request_body, bind, raise, PatientUpdate.
    rewrite Hw. simpl. rewrite Hx, andb_false_r. reflexivity.
Qed.

Lemma data_persists_positive_weight :
  (forall patient_id patch w r w',
     Data.put_edit patient_id patch w = (Ok r, w') ->
     exists u x, Py.get patient_id (stored w') = Some u
                 /\ d_weight u = Some x /\ (0 < x)%Q)
  /\ (forall body w r w',
        Data.post_create body w = (Ok r, w') ->
        exists u x, Py.get (Data.created_patient_id r) (stored w') = Some u
                    /\ d_weight u = Some x /\ (0 < x)%Q).
Proof.
  split.
  - intros pid patch w r w'. unfold Data.put_edit, Data.request_body, bind.
    destruct (PatientUpdate patch) as [u|e] eqn:E; [|discriminate].
    unfold ret. intros Hrun.
    apply update_patient_ok in Hrun as (existing & p & _ & Hp & -> & ->).
    apply Patient_fields in Hp as (_ & _ & _ & _ & _ & _ & _ & _ & _ & _ & Hw).
    exists (model_dump_exclude_id p), (weight p). unfold stored. simpl.
    rewrite get_set_same. now repeat split.
  - intros body w r w'. unfold Data.post_create, Data.request_body, bind.
    destruct (Data.Patient body) as [p|e] eqn:Hp; [|discriminate].
    unfold ret. intros Hrun.
    apply create_patient_ok in Hrun as (nid & _ & -> & ->).
    apply Patient_fields in Hp as (_ & _ & _ & _ & _ & _ & _ & _ & _ & _ & Hw).
    exists (model_dump_exclude_id p), (weight p). unfold stored. simpl.
    rewrite get_set_same. now repeat split.
Qed.

(** C6 fails in [main.py].  There the model accepts a create request whose
    weight is zero or negative and stores it, where [data.py] answers 422; and
    an update that resupplies only the height re-validates the stored record
    through the same model and stores the negative weight again. *)
Theorem variant_persists_nonpositive_weight :
  let zero := with_id "P001" (model_dump_exclude_id dan) in
  let negative := with_id "P001" (model_dump_exclude_id eve) in
  let w0 := snd (Variant.post_create zero empty_world) in
  let w1 := snd (Variant.post_create negative empty_world) in
  let w2 := snd (Variant.put_edit "P001" (height_only 2) w1) in
  Variant.post_create zero empty_world
  = (Ok {| Variant.status_code := 201; Variant.message := "Patient created successfully" |},
     {| file := Content [("P001", model_dump_exclude_id dan)]; write_failure := None |})
  /\ option_map d_weight (Py.get "P001" (stored w0)) = Some (Some 0%Q)
  /\ option_map d_weight (Py.get "P001" (stored w1)) = Some (Some (-5)%Q)
  /\ fst (Variant.put_edit "P001" (height_only 2) w1)
     = Ok {| Variant.status_code := 200; Variant.message := "Patient Updated" |}
  /\ option_map d_weight (Py.get "P001" (stored w2)) = Some (Some (-5)%Q)
  /\ Data.post_create zero empty_world = (Err RequestValidationError, empty_world)
  /\ Data.post_create negative empty_world = (Err RequestValidationError, empty_world).
Proof. cbv zeta. repeat split. Qed.

(** * Further properties of the code *)

(** ** Generated identifiers *)

Lemma int_unsigned_digits s :
  all_digits s = true -> s <> EmptyString ->
  Py.int_unsigned s = option_map Z.of_uint (NilEmpty.uint_of_string s).
Proof.
  intros H Hne. unfold Py.int_unsigned. rewrite literal_digits_digits; auto.
Qed.

Lemma int_unsigned_zfill w n :
  Py.int_unsigned (Py.zfill w (Py.decimal n)) = Some (Z.of_N n).
Proof.
  unfold Py.zfill. rewrite int_unsigned_digits.
  - rewrite uint_of_zeros. destruct (decimal_nilempty n) as [-> _].
    rewrite NilEmpty.usu. simpl. rewrite of_uint_zeros.
    unfold Z.of_uint. f_equal. f_equal. apply DecimalN.Unsigned.of_to.
  - now rewrite all_digits_app, all_digits_zeros, all_digits_decimal.
  - intros E. apply (decimal_nonempty n).
    destruct (Py.zeros _); [exact E|discriminate E].
Qed.

Lemma int_minus_digits s :
  all_digits s = true -> s <> EmptyString ->
  Py.int (String "-" s) = option_map Z.opp (Py.int_unsigned s).
Proof.
  intros H Hne. unfold Py.int, Py.strip.
  change (Py.lstrip (String "-" s)) with (String "-" s).
  simpl Py.rstrip. rewrite (rstrip_digits s H).
  destruct s as [|c r]; [now elim Hne|reflexivity].
Qed.

Lemma int_format_03d_any n : Py.int (Py.format_03d n) = Some n.
Proof.
  destruct (Z.ltb_spec n 0) as [Hneg|Hpos]; [|now apply int_format_03d].
  unfold Py.format_03d. destruct (Z.ltb_spec n 0); [|lia].
  rewrite int_minus_digits.
  - rewrite int_unsigned_zfill. simpl. f_equal. rewrite N2Z.inj_abs_N. lia.
  - unfold Py.zfill. now rewrite all_digits_app, all_digits_zeros, all_digits_decimal.
  - unfold Py.zfill. intros E. apply (decimal_nonempty (Z.abs_N n)).
    destruct (Py.zeros _); [exact E|discriminate E].
Qed.

Lemma new_id_reads_back (n : Z) :
  Py.int (Py.tail (Data.new_id n)) = Some n /\ suffix (Data.new_id n) = n.
Proof.
  unfold suffix. rewrite tail_new_id, int_format_03d_any. now split.
Qed.

(** X1.  The number an id was generated from is the number the code reads
    back from it: for every integer [n], negative ones included,
    [int(f"P{n:03d}"[1:])] is [n]. *)
Theorem generated_id_reads_back (n : Z) :
  Py.int (Py.tail (Data.new_id n)) = Some n /\ suffix (Data.new_id n) = n.
Proof. apply new_id_reads_back. Qed.

Lemma traverse_some {A B : Type} (f : A -> option B) (l : list A) (ys : list B) :
  Py.traverse f l = Some ys -> Forall2 (fun x y => f x = Some y) l ys.
Proof.
  revert ys. induction l as [|x r IH]; simpl; intros ys.
  - intros [= <-]. constructor.
  - destruct (f x) as [y|] eqn:E; [|discriminate].
    destruct (Py.traverse f r) as [zs|]; [|discriminate].
    intros [= <-]. constructor; auto.
Qed.

Lemma traverse_none {A B : Type} (f : A -> option B) (l : list A) :
  Py.traverse f l = None <-> exists x, In x l /\ f x = None.
Proof.
  induction l as [|x r IH]; simpl.
  - split; [discriminate|intros (x & [] & _)].
  - destruct (f x) as [y|] eqn:E.
    + destruct (Py.traverse f r) as [zs|]; simpl.
      * split; [discriminate|]. intros (z & [<-|Hz] & Hn); [congruence|].
        destruct IH as [_ IH]. discriminate IH. now exists z.
      * split; [|reflexivity]. intros _.
        destruct IH as [IH _]. destruct (IH eq_refl) as (z & Hz & Hn).
        exists z. split; [now right|exact Hn].
    + split; [|reflexivity]. intros _. exists x. split; [now left|exact E].
Qed.

Lemma forall2_in_left {A B : Type} (R : A -> B -> Prop) l ys x :
  Forall2 R l ys -> In x l -> exists y, In y ys /\ R x y.
Proof.
  induction 1 as [|a b l' ys' Hab _ IH]; simpl; [tauto|].
  intros [<-|Hin]; [exists b; auto|].
  destruct (IH Hin) as (y & Hy & Hr). exists y. auto.
Qed.

Lemma next_id_cases (data : collection) :
  (forall new_patient_id,
     Data.get_next_patient_id data = Ok new_patient_id ->
     ~ In new_patient_id (Py.keys data)
     /\ (forall k, In k (Py.keys data) ->
           exists n, Py.int (Py.tail k) = Some n /\ n < suffix new_patient_id))
  /\ (forall e, Data.get_next_patient_id data = Err e ->
        e = ValueError /\ exists k, In k (Py.keys data) /\ Py.int (Py.tail k) = None)
  /\ ((exists k, In k (Py.keys data) /\ Py.int (Py.tail k) = None) ->
      Data.get_next_patient_id data = Err ValueError).
Proof.
  unfold Data.get_next_patient_id.
  destruct data as [|kv rest] eqn:Hdata.
  { split; [|split].
    - intros nid _. split; [intros []|intros k []].
    - discriminate.
    - intros (k & [] & _). }
  rewrite <- Hdata.
  assert (Hne : Py.keys data <> []) by (rewrite Hdata; discriminate).
  clear Hdata kv rest.
  destruct (Py.traverse _ (Py.keys data)) as [ns|] eqn:Ht.
  - pose proof (traverse_some _ _ _ Ht) as H2.
    destruct ns as [|n ns].
    { inversion H2 as [E|]. now rewrite <- E in Hne. }
    assert (Hbelow : forall k, In k (Py.keys data) ->
              exists m, Py.int (Py.tail k) = Some m /\ m < Py.max_of n ns + 1).
    { intros k Hk. destruct (forall2_in_left _ _ _ k H2 Hk) as (m & Hm & E).
      exists m. split; [exact E|]. pose proof (max_of_upper n ns m Hm). lia. }
    split; [|split].
    + intros nid [= <-].
      destruct (new_id_reads_back (Py.max_of n ns + 1)) as [Hint Hsuf].
      rewrite Hsuf. split; [|exact Hbelow].
      intros Hin. destruct (Hbelow _ Hin) as (m & E & Hlt).
      rewrite Hint in E. injection E as <-. lia.
    + discriminate.
    + intros (k & Hk & Hnone).
      destruct (Hbelow k Hk) as (m & E & _). congruence.
  - split; [discriminate|]. split.
    + intros e [= <-]. split; [reflexivity|]. now apply traverse_none in Ht.
    + reflexivity.
Qed.



(** ** Create *)

Lemma get_app_left {V : Type} (k : string) (v : V) (d l : Py.dict V) :
  Py.get k d = Some v -> Py.get k (d ++ l)%list = Some v.
Proof.
  induction d as [|[k' v'] r IH]; simpl; [discriminate|].
  destruct (String.eqb k' k); auto.
Qed.

Lemma create_patient_appends patient w r w' :
  Data.create_patient patient w = (Ok r, w') ->
  ~ In (Data.created_patient_id r) (Py.keys (stored w))
  /\ stored w'
     = (stored w ++ [(Data.created_patient_id r, model_dump_exclude_id patient)])%list.
Proof.
  intros H. apply create_patient_ok in H as (nid & Hnext & -> & ->). simpl.
  destruct (next_id_cases (stored w)) as (Hfresh & _ & _).
  destruct (Hfresh nid Hnext) as [Hnotin _].
  split; [exact Hnotin|]. unfold stored at 1. simpl.
  apply set_fresh. now apply get_none_iff.
Qed.

(** X3.  A successful [create_patient], on any collection, adds the new entry
    at the end under an id no entry had: every entry stored before is still
    stored under its id with its value, and [view_patient] on the returned id
    answers the fields of the patient with the computed bmi and verdict. *)
Theorem create_appends_entry (patient : patient) (w w' : world) (r : Data.created) :
  Data.create_patient patient w = (Ok r, w') ->
  ~ In (Data.created_patient_id r) (Py.keys (stored w))
  /\ stored w'
     = (stored w ++ [(Data.created_patient_id r, model_dump_exclude_id patient)])%list
  /\ (forall k v, Py.get k (stored w) = Some v -> Py.get k (stored w') = Some v)
  /\ Data.view_patient (Data.created_patient_id r) w'
     = (Ok (model_dump_exclude_id patient), w').
Proof.
  intros H. destruct (create_patient_appends _ _ _ _ H) as [Hfresh Hst].
  split; [exact Hfresh|]. split; [exact Hst|]. split.
  - intros k v Hk. rewrite Hst. now apply get_app_left.
  - apply create_patient_ok in H as (nid & _ & -> & ->).
    unfold Data.view_patient, bind, ret, load_data. simpl.
    now rewrite get_set_same.
Qed.

Lemma create_appends_entry_sample :
  stored (snd (Data.create_patient ann sample_world))
  = (three_patients ++ [("P004", model_dump_exclude_id ann)])%list.
Proof.
  apply (create_appends_entry ann sample_world
           (snd (Data.create_patient ann sample_world))
           {| Data.created_message := "Patient created successfully";
              Data.created_patient_id := "P004" |}).
  reflexivity.
Defined.

(** ** Renumbering on arbitrary keys *)

Lemma decorate_parsed (data : collection) :
  Forall (fun k => Py.int (Py.tail k) <> None) (Py.keys data) ->
  Data.decorate data = Some (map (fun x => (suffix (fst x), x)) data).
Proof.
  unfold Data.decorate, suffix.
  induction data as [|[k v] r IH]; simpl; intros H; [reflexivity|].
  inversion H as [|? ? Hk Hr]; subst.
  destruct (Py.int (Py.tail k)) as [n|]; [|now elim Hk]. simpl. now rewrite (IH Hr).
Qed.

Lemma decorate_failed (data : collection) :
  Data.decorate data = None <->
  exists k, In k (Py.keys data) /\ Py.int (Py.tail k) = None.
Proof.
  unfold Data.decorate. rewrite traverse_none. split.
  - intros ([k v] & Hin & E). exists k. split; [now apply (in_map fst) in Hin|].
    simpl in E. now destruct (Py.int (Py.tail k)).
  - intros (k & Hin & E). apply in_map_iff in Hin as ([k' v] & <- & Hin).
    exists (k', v). split; [exact Hin|]. simpl in *. now rewrite E.
Qed.

Lemma renumber_patients_parsed (data : collection) :
  Forall (fun k => Py.int (Py.tail k) <> None) (Py.keys data) ->
  Data.renumber_patients data
  = Ok (combine (ids_upto (List.length data))
          (Py.values (Py.stable_sort Z.ltb (fun x => suffix (fst x)) data))).
Proof.
  intros Hwf. unfold Data.renumber_patients.
  destruct data as [|kv rest] eqn:Hdata; [reflexivity|]. rewrite <- Hdata in *.
  clear Hdata kv rest.
  rewrite (decorate_parsed data Hwf).
  rewrite (stable_sort_decorated Z.ltb (fun x => suffix (fst x)) data).
  set (l := Py.stable_sort Z.ltb (fun x => suffix (fst x)) data).
  assert (Hlen : List.length l = List.length data).
  { apply Permutation_length, stable_sort_perm. }
  f_equal.
  rewrite (fold_set_map (fun ix => Data.new_id (fst ix)) (fun ix => snd (snd ix))).
  change 1 with (Z.of_nat 1). rewrite enumerate_new_ids, Hlen.
  fold (ids_upto (List.length data)).
  rewrite fold_set_fresh; [reflexivity|].
  simpl. change (map fst ?l) with (Py.keys l).
  rewrite keys_combine; [apply ids_upto_NoDup|].
  unfold Py.values. now rewrite ids_upto_length, length_map.
Qed.

Lemma renumber_patients_cases (data : collection) :
  (forall renumbered_data,
     Data.renumber_patients data = Ok renumbered_data ->
     Py.keys renumbered_data = ids_upto (List.length data)
     /\ List.length renumbered_data = List.length data
     /\ Permutation (Py.values renumbered_data) (Py.values data))
  /\ (forall e, Data.renumber_patients data = Err e ->
        e = ValueError /\ exists k, In k (Py.keys data) /\ Py.int (Py.tail k) = None)
  /\ ((exists k, In k (Py.keys data) /\ Py.int (Py.tail k) = None) ->
      Data.renumber_patients data = Err ValueError).
Proof.
  destruct (Data.decorate data) as [keyed|] eqn:Hd.
  - assert (Hwf : Forall (fun k => Py.int (Py.tail k) <> None) (Py.keys data)).
    { apply Forall_forall. intros k Hk E.
      assert (Hnone : Data.decorate data = None) by (apply decorate_failed; eauto).
      congruence. }
    rewrite (renumber_patients_parsed data Hwf).
    set (l := Py.stable_sort Z.ltb (fun x => suffix (fst x)) data).
    assert (Hperm : Permutation l data) by apply stable_sort_perm.
    assert (Hlen : List.length (ids_upto (List.length data)) = List.length (Py.values l)).
    { unfold Py.values. rewrite ids_upto_length, length_map.
      symmetry. now apply Permutation_length. }
    split; [|split].
    + intros renumbered [= <-]. split; [now apply keys_combine|]. split.
      * rewrite length_combine, <- Hlen, ids_upto_length. lia.
      * rewrite values_combine by exact Hlen. unfold Py.values.
        now apply Permutation_map.
    + discriminate.
    + intros (k & Hk & E). rewrite Forall_forall in Hwf. now elim (Hwf k Hk).
  - assert (Hrun : Data.renumber_patients data = Err ValueError).
    { unfold Data.renumber_patients. rewrite Hd.
      destruct data; [discriminate Hd|reflexivity]. }
    rewrite Hrun. split; [discriminate|]. split.
    + intros e [= <-]. split; [reflexivity|]. now apply decorate_failed.
    + reflexivity.
Qed.



(** ** Renumbering a dense collection *)

Lemma stable_sort_ascending {A K : Type} (ltb : K -> K -> bool) (key : A -> K)
    (l : list A) :
  StronglySorted (before ltb key) l -> Py.stable_sort ltb key l = l.
Proof.
  induction 1 as [|x r Hr IH Hx]; simpl; [reflexivity|].
  rewrite IH. destruct r as [|y r']; [reflexivity|]. simpl.
  inversion Hx as [|? ? Hxy _]; subst. unfold before in Hxy. now rewrite Hxy.
Qed.

Lemma strongly_sorted_map_inv {A B : Type} (f : A -> B) (R : B -> B -> Prop)
    (l : list A) :
  StronglySorted R (map f l) -> StronglySorted (fun x y => R (f x) (f y)) l.
Proof.
  induction l as [|x r IH]; simpl; intros H; [constructor|].
  inversion H as [|? ? Hr Hx]; subst. constructor; [now apply IH|].
  rewrite Forall_map in Hx. exact Hx.
Qed.

Lemma strongly_sorted_filter {A : Type} (R : A -> A -> Prop) (P : A -> bool)
    (l : list A) :
  StronglySorted R l -> StronglySorted R (filter P l).
Proof.
  induction 1 as [|x r Hr IH Hx]; simpl; [constructor|].
  destruct (P x); [|exact IH]. constructor; [exact IH|].
  rewrite Forall_forall in *. intros y Hy. apply Hx.
  now apply filter_In in Hy.
Qed.

Lemma seq_ascending (start len : nat) :
  StronglySorted Z.le (map Z.of_nat (seq start len)).
Proof.
  revert start. induction len as [|n IH]; intros start; simpl; constructor.
  - apply IH.
  - rewrite Forall_map, Forall_forall. intros i Hi. apply in_seq in Hi. lia.
Qed.

Lemma combine_append {A B : Type} (l1 l2 : list A) (m1 m2 : list B) :
  List.length l1 = List.length m1 ->
  combine (l1 ++ l2) (m1 ++ m2) = (combine l1 m1 ++ combine l2 m2)%list.
Proof.
  revert m1. induction l1 as [|x r IH]; intros [|y m1]; simpl; try discriminate; auto.
  intros [= H]. now rewrite IH.
Qed.

Lemma combine_keys_values (data : collection) :
  combine (Py.keys data) (Py.values data) = data.
Proof.
  induction data as [|[k v] r IH]; simpl; [reflexivity|]. now rewrite IH.
Qed.

Lemma dense_ascending (data : collection) :
  dense_ids data ->
  StronglySorted (before Z.ltb (fun x => suffix (fst x))) data.
Proof.
  intros Hd.
  apply strongly_sorted_impl
    with (R := fun x y => suffix (fst x) <= suffix (fst y)).
  { intros x y H. unfold before. apply Z.ltb_ge. exact H. }
  apply (strongly_sorted_map_inv (fun x => suffix (fst x)) Z.le).
  rewrite <- (map_map fst suffix). change (map fst data) with (Py.keys data).
  rewrite Hd, suffix_ids_upto. apply seq_ascending.
Qed.

Lemma dense_parsed (data : collection) :
  Forall (fun k => is_patient_id k = true) (Py.keys data) ->
  Forall (fun k => Py.int (Py.tail k) <> None) (Py.keys data).
Proof.
  apply Forall_impl. intros k Hk. destruct (patient_id_suffix k Hk) as [E _].
  congruence.
Qed.

Lemma renumber_ascending (data : collection) :
  Forall (fun k => is_patient_id k = true) (Py.keys data) ->
  StronglySorted (before Z.ltb (fun x => suffix (fst x))) data ->
  Data.renumber_patients data
  = Ok (combine (ids_upto (List.length data)) (Py.values data)).
Proof.
  intros Hwf Hs. rewrite (renumber_patients_sorted data Hwf).
  now rewrite stable_sort_ascending.
Qed.

(** X5.  Renumbering is idempotent.  [renumber_patients] returns a collection
    whose keys are already P001 .. P{n} unchanged, so renumbering the result
    of a renumbering gives that result again. *)
Theorem renumber_patients_idempotent (data renumbered_data : collection) :
  Data.renumber_patients data = Ok renumbered_data ->
  Data.renumber_patients renumbered_data = Ok renumbered_data.
Proof.
  intros H. destruct (renumber_patients_cases data) as (Hok & _ & _).
  destruct (Hok _ H) as (Hkeys & Hlen & _).
  assert (Hd : dense_ids renumbered_data) by now apply (dense_ids_of_keys _ _ Hkeys).
  rewrite renumber_ascending.
  - unfold dense_ids in Hd. rewrite <- Hd. now rewrite combine_keys_values.
  - now apply dense_ids_keys.
  - now apply dense_ascending.
Qed.

Lemma renumber_patients_idempotent_sample :
  Data.renumber_patients
    [("P001", model_dump_exclude_id bob); ("P002", model_dump_exclude_id ann)]
  = Ok [("P001", model_dump_exclude_id bob); ("P002", model_dump_exclude_id ann)].
Proof.
  apply (renumber_patients_idempotent
           [("P010", model_dump_exclude_id ann); ("P2", model_dump_exclude_id bob)]).
  reflexivity.
Defined.

(** X6.  Deleting from a dense collection keeps the stored order: with keys
    P001 .. P{n} and a writable file, [delete_patient] stores the values of
    the other entries in the order they had, under P001 .. P{n-1}.  The
    entries before the deleted one keep their id, the entries after it move
    down by one. *)
Theorem delete_patient_keeps_order (w : world) (data : collection)
    (patient_id : string) (deleted_patient : patient_dict) :
  file w = Content data ->
  write_failure w = None ->
  dense_ids data ->
  Py.get patient_id data = Some deleted_patient ->
  exists w',
    Data.delete_patient patient_id w
    = (Ok {| Data.deleted_message := "Patient deleted successfully and IDs renumbered";
             Data.deleted_patient := deleted_patient;
             Data.new_patient_count := Z.of_nat (List.length data) - 1 |}, w')
    /\ Py.keys (stored w') = ids_upto (List.length data - 1)
    /\ Py.values (stored w') = Py.values (Py.del patient_id data)
    /\ forall front back,
         data = (front ++ (patient_id, deleted_patient) :: back)%list ->
         stored w'
         = (front ++ combine (map (fun i => Data.new_id (Z.of_nat i))
                                (seq (S (List.length front)) (List.length back)))
                       (Py.values back))%list.
Proof.
  intros Hfile Hwrite Hd Hget.
  destruct (dense_ids_keys data Hd) as [Hnd Hwf].
  set (rest := Py.del patient_id data).
  assert (Hlen : S (List.length rest) = List.length data)
    by now apply (length_del patient_id deleted_patient).
  assert (Hren : Data.renumber_patients rest
                 = Ok (combine (ids_upto (List.length rest)) (Py.values rest))).
  { apply renumber_ascending; [now apply patient_ids_del|].
    apply strongly_sorted_filter. now apply dense_ascending. }
  eexists. split; [|split; [|split]].
  - unfold Data.delete_patient, bind, lift, ret, load_data.
    rewrite Hfile, Hget. fold rest. rewrite Hren.
    rewrite save_data_writable by exact Hwrite.
    do 3 f_equal. rewrite length_combine, ids_upto_length.
    unfold Py.values. rewrite length_map. lia.
  - unfold stored. simpl. rewrite keys_combine.
    + f_equal. lia.
    + unfold Py.values. now rewrite ids_upto_length, length_map.
  - unfold stored. simpl. apply values_combine.
    unfold Py.values. now rewrite ids_upto_length, length_map.
  - intros front back E. unfold stored. simpl.
    assert (Hfront : Py.keys front = ids_upto (List.length front)).
    { unfold dense_ids in Hd. rewrite E in Hd. unfold Py.keys in Hd.
      rewrite map_app, length_app in Hd. simpl in Hd.
      unfold ids_upto in Hd. rewrite seq_app, map_app in Hd.
      apply (f_equal (firstn (List.length front))) in Hd.
      rewrite firstn_app, firstn_all2 in Hd by (rewrite length_map; lia).
      rewrite length_map, Nat.sub_diag in Hd. simpl in Hd.
      rewrite List.app_nil_r in Hd.
      rewrite firstn_app, firstn_all2 in Hd by (rewrite length_map, length_seq; lia).
      rewrite length_map, length_seq, Nat.sub_diag in Hd. simpl in Hd.
      rewrite List.app_nil_r in Hd. exact Hd. }
    assert (Hrest : rest = (front ++ back)%list).
    { unfold rest, Py.del. rewrite E, filter_app. simpl.
      rewrite String.eqb_refl. simpl.
      assert (Hf : forall l : collection,
                 ~ In patient_id (Py.keys l) ->
                 filter (fun kv => negb (fst kv =? patient_id)%string) l = l).
      { intros l Hl. apply (del_absent patient_id l). now apply get_none_iff. }
      rewrite E in Hnd. unfold Py.keys in Hnd. rewrite map_app in Hnd. simpl in Hnd.
      apply NoDup_remove_2 in Hnd.
      rewrite !Hf; [reflexivity| |];
        intros Hin; apply Hnd, in_or_app; [now right|now left]. }
    rewrite Hrest. unfold Py.values. rewrite map_app, length_app.
    unfold ids_upto. rewrite seq_app, map_app.
    rewrite combine_append by (rewrite !length_map, length_seq; reflexivity).
    f_equal.
    fold (ids_upto (List.length front)). rewrite <- Hfront.
    apply combine_keys_values.
Qed.

Lemma delete_patient_keeps_order_sample :
  exists w',
    Data.delete_patient "P001" sample_world
    = (Ok {| Data.deleted_message := "Patient deleted successfully and IDs renumbered";
             Data.deleted_patient := model_dump_exclude_id ann;
             Data.new_patient_count := 2 |}, w')
    /\ Py.values (stored w') = [model_dump_exclude_id bob; model_dump_exclude_id cyd].
Proof.
  destruct (delete_patient_keeps_order sample_world three_patients "P001"
              (model_dump_exclude_id ann)) as (w' & Hrun & _ & Hvals & _);
    try reflexivity.
  exists w'. split; [exact Hrun|exact Hvals].
Defined.

(** ** The states the routes reach *)

Lemma post_create_ok body w r w' :
  Data.post_create body w = (Ok r, w') ->
  exists p, Data.Patient body = Ok p /\ Data.create_patient p w = (Ok r, w').
Proof.
  unfold Data.post_create, Data.request_body, bind.
  destruct (Data.Patient body) as [p|e]; [|discriminate].
  unfold ret. intros H. now exists p.
Qed.

Lemma put_edit_ok patient_id body w r w' :
  Data.put_edit patient_id body w = (Ok r, w') ->
  PatientUpdate body = Ok body /\ Data.update_patient patient_id body w = (Ok r, w').
Proof.
  unfold Data.put_edit, Data.request_body, bind, PatientUpdate.
  destruct (_ && _)%bool; [|discriminate]. unfold ret. now split.
Qed.

Lemma request_is_step w w' : request w w' -> step w w'.
Proof.
  intros [body r H|pid body r H|pid r H].
  - apply post_create_ok in H as (p & _ & H). now apply (step_create w w' p r).
  - apply put_edit_ok in H as [_ H]. now apply (step_update w w' pid body r).
  - now apply (step_delete w w' pid r).
Qed.

Lemma served_reachable w : served w -> reachable w.
Proof.
  induction 1 as [w H|w w' _ IH Hr]; [now apply reachable_empty|].
  apply (reachable_step w); [exact IH|now apply request_is_step].
Qed.

Lemma reachable_dense w : reachable w -> file w <> Unparsable /\ dense_ids (stored w).
Proof.
  induction 1 as [w [E|E]|w w' _ [_ IH] Hs].
  - unfold stored, dense_ids. rewrite E. split; [discriminate|reflexivity].
  - unfold stored, dense_ids. rewrite E. split; [discriminate|reflexivity].
  - split; [now apply (step_readable w)|now apply (step_preserves_dense w)].
Qed.

Lemma readable_load w : file w <> Unparsable -> load_data w = (Ok (stored w), w).
Proof.
  intros H. unfold load_data, stored.
  destruct (file w); [reflexivity|now elim H|reflexivity].
Qed.

Lemma Patient_valid_record body p :
  Data.Patient body = Ok p -> valid_record (model_dump_exclude_id p).
Proof.
  intros H. apply Patient_fields in H
    as (_ & _ & _ & _ & _ & _ & _ & Ha & Hg & Hh & Hw).
  exists p. repeat split; assumption.
Qed.

Lemma values_set_valid (P : patient_dict -> Prop) k v (data : collection) :
  Forall P (Py.values data) -> P v -> Forall P (Py.values (Py.set k v data)).
Proof.
  intros H Hv. induction data as [|[k' v'] r IH]; simpl.
  - constructor; [exact Hv|constructor].
  - inversion H as [|? ? Hv' Hr]; subst.
    destruct (String.eqb k' k); simpl; constructor; auto.
Qed.

Lemma values_del_valid (P : patient_dict -> Prop) k (data : collection) :
  Forall P (Py.values data) -> Forall P (Py.values (Py.del k data)).
Proof.
  unfold Py.values. rewrite !Forall_map, !Forall_forall.
  intros H x Hx. apply H. now apply filter_In in Hx.
Qed.

Lemma request_keeps_valid w w' :
  Forall valid_record (Py.values (stored w)) -> request w w' ->
  Forall valid_record (Py.values (stored w')).
Proof.
  intros Hv [body r H|pid body r H|pid r H].
  - apply post_create_ok in H as (p & Hp & H).
    apply create_patient_ok in H as (nid & _ & _ & ->). unfold stored at 1. simpl.
    apply values_set_valid; [exact Hv|now apply (Patient_valid_record body)].
  - apply put_edit_ok in H as [_ H].
    apply update_patient_ok in H as (existing & p & _ & Hp & _ & ->).
    unfold stored at 1. simpl.
    apply values_set_valid; [exact Hv|now apply (Patient_valid_record _ _ Hp)].
  - apply delete_patient_ok in H as (existing & renumbered & _ & Hren & _ & ->).
    unfold stored at 1. simpl.
    destruct (renumber_patients_cases (Py.del pid (stored w))) as (Hok & _ & _).
    destruct (Hok _ Hren) as (_ & _ & Hperm).
    apply (Permutation_Forall (Permutation_sym Hperm)).
    now apply values_del_valid.
Qed.

Lemma served_valid w : served w -> Forall valid_record (Py.values (stored w)).
Proof.
  induction 1 as [w [E|E]|w w' _ IH Hr].
  - unfold stored. rewrite E. constructor.
  - unfold stored. rewrite E. constructor.
  - now apply (request_keeps_valid w).
Qed.

(** X7.  In every state the routes of [data.py] reach from an empty
    collection, each stored record is a full valid patient: all fields are
    present, age, height and weight are positive, the gender is one of the
    three literals, and the stored bmi and verdict are the ones computed from
    the stored height and weight. *)
Theorem served_records_valid (w : world) :
  served w ->
  forall k u, Py.get k (stored w) = Some u ->
    exists n c a g h x,
      u = {| d_id := None; d_name := Some n; d_city := Some c; d_age := Some a;
             d_gender := Some g; d_height := Some h; d_weight := Some x;
             d_bmi := Some (Py.round2 (x / h ^ 2));
             d_verdict := Some (verdict (mk_patient n c a g h x)) |}
      /\ 0 < a /\ In g ["male"; "female"; "others"]
      /\ (0 < h)%Q /\ (0 < x)%Q.
Proof.
  intros Hs k u Hget. pose proof (served_valid w Hs) as Hv.
  rewrite Forall_forall in Hv.
  destruct (Hv u) as (p & -> & Ha & Hg & Hh & Hw).
  { apply get_in in Hget. now apply (in_map snd) in Hget. }
  exists (name p), (city p), (age p), (gender p), (height p), (weight p).
  repeat split; auto.
  unfold is_gender in Hg. apply existsb_exists in Hg as (x & Hx & E).
  apply String.eqb_eq in E. now subst.
Qed.

Lemma served_records_valid_sample :
  exists n c a g h x,
    model_dump_exclude_id bob
    = {| d_id := None; d_name := Some n; d_city := Some c; d_age := Some a;
         d_gender := Some g; d_height := Some h; d_weight := Some x;
         d_bmi := Some (Py.round2 (x / h ^ 2));
         d_verdict := Some (verdict (mk_patient n c a g h x)) |}
    /\ 0 < a /\ In g ["male"; "female"; "others"]
    /\ (0 < h)%Q /\ (0 < x)%Q.
Proof.
  apply (served_records_valid
           (snd (Data.post_create (body_of bob)
                   (snd (Data.post_create (body_of ann) empty_world)))) ) with (k := "P002").
  - apply (served_request (snd (Data.post_create (body_of ann) empty_world))).
    + apply (served_request empty_world).
      * apply served_empty. left. reflexivity.
      * apply (request_create _ _ (body_of ann)
                 {| Data.created_message := "Patient created successfully";
                    Data.created_patient_id := "P001" |}). reflexivity.
    + apply (request_create _ _ (body_of bob)
               {| Data.created_message := "Patient created successfully";
                  Data.created_patient_id := "P002" |}). reflexivity.
  - reflexivity.
Defined.
